(** * enforce-variable-naming-convention: a shallow embedding of the rule

    The rule lives in one closure, [create(context)], which resolves the
    options, builds the case validators and converters and returns the
    [VariableDeclarator] visitor.  This file follows that layout:

    - [JsString]: the fragments of JavaScript strings and of the rule's
      regular-expression literals that the closure uses;
    - [Case]: [caseValidators] and [caseConverters];
    - [Ast]: the part of the ESTree a declarator visit inspects;
    - [Eff]: a small monad recording the calls made to the host (scope
      manager, source text, type checker, user regular expressions, reports)
      and exceptions;
    - [Rule]: the closure itself, over a host and an options record.

    Names are strings of code units.  A code unit below 128 is the ASCII
    character of that code; a code unit of 128 or more stands for a
    character that is no line terminator and that the case mappings leave
    unchanged.  The case mappings here are those of ASCII, so the
    converters are the rule's converters on names of ASCII characters
    ([isAsciiName]); a name with a cased letter outside ASCII is converted
    differently by the rule, and what is proved about the result of a
    conversion is stated for ASCII names or for names a validator
    accepts, which are ASCII. *)

From Stdlib Require Import Bool Arith List String Ascii ZArith Lia.
Import ListNotations.

Local Open Scope string_scope.
Local Open Scope nat_scope.
Local Open Scope list_scope.

(* ------------------------------------------------------------------ *)
(** ** JavaScript strings and the regular-expression literals of the rule *)

Module JsString.

Definition code (c : ascii) : nat := nat_of_ascii c.

(** Character classes [[a-z]], [[A-Z]], [[0-9]]. *)
Definition isLower (c : ascii) : bool := (97 <=? code c) && (code c <=? 122).
Definition isUpper (c : ascii) : bool := (65 <=? code c) && (code c <=? 90).
Definition isDigit (c : ascii) : bool := (48 <=? code c) && (code c <=? 57).

(** [[a-zA-Z0-9]] *)
Definition isAlnum (c : ascii) : bool := isLower c || isUpper c || isDigit c.

Definition isUnderscore (c : ascii) : bool := Ascii.eqb c "_"%char.
Definition isHyphen (c : ascii) : bool := Ascii.eqb c "-"%char.

(** [[-_]] *)
Definition isSeparator (c : ascii) : bool := isHyphen c || isUnderscore c.

(** [.] without the [s] flag: any character but a line terminator. *)
Definition isDot (c : ascii) : bool :=
  negb (Nat.eqb (code c) 10 || Nat.eqb (code c) 13).

(** [String.prototype.toUpperCase] / [toLowerCase] on one ASCII character;
    any other code unit is left as it is, so the two mappings are those
    of JavaScript on ASCII strings only. *)
Definition toUpperCaseChar (c : ascii) : ascii :=
  if isLower c then ascii_of_nat (code c - 32) else c.
Definition toLowerCaseChar (c : ascii) : ascii :=
  if isUpper c then ascii_of_nat (code c + 32) else c.

Fixpoint toUpperCase (s : string) : string :=
  match s with
  | EmptyString => EmptyString
  | String c r => String (toUpperCaseChar c) (toUpperCase r)
  end.

Fixpoint toLowerCase (s : string) : string :=
  match s with
  | EmptyString => EmptyString
  | String c r => String (toLowerCaseChar c) (toLowerCase r)
  end.

(** [/^X$/.test], for [X] a class followed by a starred class. *)
Fixpoint all (p : ascii -> bool) (s : string) : bool :=
  match s with
  | EmptyString => true
  | String c r => p c && all p r
  end.

Definition testFirstRest (first rest : ascii -> bool) (s : string) : bool :=
  match s with
  | EmptyString => false
  | String c r => first c && all rest r
  end.

(** [s.replace(/[-_](.)/g, (_, char) => char.toUpperCase())]: scanning from
    the left, a separator followed by a [.] character is replaced by the
    upper-cased character and the scan resumes after the pair. *)
Fixpoint replaceSeparators (s : string) : string :=
  match s with
  | EmptyString => EmptyString
  | String c r =>
      if isSeparator c then
        match r with
        | String d r' =>
            if isDot d then String (toUpperCaseChar d) (replaceSeparators r')
            else String c (replaceSeparators r)
        | EmptyString => String c EmptyString
        end
      else String c (replaceSeparators r)
  end.

(** [s.replace(/^(.)/, f)] for a character-to-character [f]. *)
Definition replaceFirst (f : ascii -> ascii) (s : string) : string :=
  match s with
  | EmptyString => EmptyString
  | String c r => if isDot c then String (f c) r else s
  end.

(** [s.replace(/([A-Z])/g, sep + '$1')] *)
Fixpoint insertBeforeUpper (sep : ascii) (s : string) : string :=
  match s with
  | EmptyString => EmptyString
  | String c r =>
      if isUpper c then String sep (String c (insertBeforeUpper sep r))
      else String c (insertBeforeUpper sep r)
  end.

(** [s.replace(/^_/, '')] and [s.replace(/^-/, '')] *)
Definition dropLeading (sep : ascii) (s : string) : string :=
  match s with
  | EmptyString => EmptyString
  | String c r => if Ascii.eqb c sep then r else s
  end.

(** [/^[A-Z][a-zA-Z0-9_]*\[/.test(text)] *)
Fixpoint afterIdentifierBracket (s : string) : bool :=
  match s with
  | EmptyString => false
  | String c r =>
      if Ascii.eqb c "["%char then true
      else if isAlnum c || isUnderscore c then afterIdentifierBracket r
      else false
  end.

Definition testUpperIdentifierBracket (s : string) : bool :=
  match s with
  | EmptyString => false
  | String c r => isUpper c && afterIdentifierBracket r
  end.

(** [Array.prototype.includes] on strings. *)
Definition includes (l : list string) (x : string) : bool :=
  existsb (String.eqb x) l.

End JsString.

(* ------------------------------------------------------------------ *)
(** ** The case table *)

Module Case.
Import JsString.

Inductive CaseType : Type :=
| camelCase
| PascalCase
| snake_case
| UPPER_SNAKE_CASE
| kebab_case.

Definition caseValidators (c : CaseType) (name : string) : bool :=
  match c with
  | camelCase => testFirstRest isLower isAlnum name
  | PascalCase => testFirstRest isUpper isAlnum name
  | snake_case =>
      testFirstRest isLower
        (fun c => isLower c || isDigit c || isUnderscore c) name
  | UPPER_SNAKE_CASE =>
      testFirstRest isUpper
        (fun c => isUpper c || isDigit c || isUnderscore c) name
  | kebab_case =>
      testFirstRest isLower
        (fun c => isLower c || isDigit c || isHyphen c) name
  end.

Definition caseConverters (c : CaseType) (name : string) : string :=
  match c with
  | camelCase => replaceFirst toLowerCaseChar (replaceSeparators name)
  | PascalCase => replaceFirst toUpperCaseChar (replaceSeparators name)
  | snake_case =>
      dropLeading "_"%char (toLowerCase (insertBeforeUpper "_"%char name))
  | UPPER_SNAKE_CASE =>
      dropLeading "_"%char (toUpperCase (insertBeforeUpper "_"%char name))
  | kebab_case =>
      dropLeading "-"%char (toLowerCase (insertBeforeUpper "-"%char name))
  end.

End Case.

(* ------------------------------------------------------------------ *)
(** ** The syntax a declarator visit inspects *)

Module Ast.

(** Expression kinds the rule never names. *)
Inductive OtherKind : Type :=
| AssignmentExpression
| AwaitExpression
| ChainExpression
| ClassExpression
| ImportExpression
| JSXElement
| JSXFragment
| MetaProperty
| NewExpression
| SequenceExpression
| Super
| ThisExpression
| TSAsExpression
| TSInstantiationExpression
| TSNonNullExpression
| TSSatisfiesExpression
| TSTypeAssertion
| UpdateExpression
| YieldExpression.

(** An expression node.  Only the children the rule reads are kept: the
    callee of a call, the tag of a tagged template, the object of a member
    access and the name of an identifier. *)
Inductive Node : Type :=
| Identifier (name : string)
| Literal
| TemplateLiteral
| ArrayExpression
| ObjectExpression
| UnaryExpression
| BinaryExpression
| LogicalExpression
| ConditionalExpression
| MemberExpression (object : Node)
| CallExpression (callee : Node)
| TaggedTemplateExpression (tag : Node)
| ArrowFunctionExpression
| FunctionExpression
| OtherExpression (kind : OtherKind).

Definition otherType (k : OtherKind) : string :=
  match k with
  | AssignmentExpression => "AssignmentExpression"
  | AwaitExpression => "AwaitExpression"
  | ChainExpression => "ChainExpression"
  | ClassExpression => "ClassExpression"
  | ImportExpression => "ImportExpression"
  | JSXElement => "JSXElement"
  | JSXFragment => "JSXFragment"
  | MetaProperty => "MetaProperty"
  | NewExpression => "NewExpression"
  | SequenceExpression => "SequenceExpression"
  | Super => "Super"
  | ThisExpression => "ThisExpression"
  | TSAsExpression => "TSAsExpression"
  | TSInstantiationExpression => "TSInstantiationExpression"
  | TSNonNullExpression => "TSNonNullExpression"
  | TSSatisfiesExpression => "TSSatisfiesExpression"
  | TSTypeAssertion => "TSTypeAssertion"
  | UpdateExpression => "UpdateExpression"
  | YieldExpression => "YieldExpression"
  end.

(** The [type] field of a node. *)
Definition type (n : Node) : string :=
  match n with
  | Identifier _ => "Identifier"
  | Literal => "Literal"
  | TemplateLiteral => "TemplateLiteral"
  | ArrayExpression => "ArrayExpression"
  | ObjectExpression => "ObjectExpression"
  | UnaryExpression => "UnaryExpression"
  | BinaryExpression => "BinaryExpression"
  | LogicalExpression => "LogicalExpression"
  | ConditionalExpression => "ConditionalExpression"
  | MemberExpression _ => "MemberExpression"
  | CallExpression _ => "CallExpression"
  | TaggedTemplateExpression _ => "TaggedTemplateExpression"
  | ArrowFunctionExpression => "ArrowFunctionExpression"
  | FunctionExpression => "FunctionExpression"
  | OtherExpression k => otherType k
  end.

(** The type written after a binding identifier. *)
Inductive TypeNode : Type :=
| TSAnyKeyword
| TSUnknownKeyword
| TSStringKeyword
| TSNumberKeyword
| TSTypeReference (typeName : string)
| TSArrayType (elementType : TypeNode)
| TSUnionType (left right : TypeNode).

(** The target of a declarator: [node.id]. *)
Inductive BindingName : Type :=
| BindingIdentifier (name : string) (typeAnnotation : option TypeNode)
| ArrayPattern
| ObjectPattern.

Record VariableDeclarator : Type := mkDeclarator {
  id : BindingName;
  init : option Node
}.

(** [node.id.type === 'Identifier'] *)
Definition isIdentifier (b : BindingName) : bool :=
  match b with
  | BindingIdentifier _ _ => true
  | _ => false
  end.

(** What the scope manager records about a name. *)
Inductive DefinitionType : Type :=
| ImportBinding
| VariableDefinition
| ParameterDefinition
| FunctionNameDefinition
| ClassNameDefinition.

Record ScopeVariable : Type := mkVariable {
  var_name : string;
  defs : list DefinitionType
}.

Record Scope : Type := mkScope {
  variables : list ScopeVariable
}.

(** A type of the type checker, as far as the rule looks at it. *)
Record TsType : Type := mkTsType {
  flags : Z
}.

(** A node of the type checker's own tree. *)
Definition TsNode : Type := nat.

End Ast.

(* ------------------------------------------------------------------ *)
(** ** Effects: host calls, reports and exceptions *)

Module Eff.
Import Case.

(** The argument of [context.report]. *)
Record ReportDescriptor : Type := mkReport {
  messageId : string;
  currentName : string;
  expectedCase : CaseType;
  suggestedName : string;
  fix_replaceText : string
}.

(** What a visit does to its surroundings, in order. *)
Inductive Event : Type :=
| GetScope
| GetText
| RegExpTest (source subject : string)
| NodeMapGet
| GetTypeAtLocation
| TypeToString
| Report (d : ReportDescriptor).

Inductive Outcome (A : Type) : Type :=
| Returned (a : A)
| Thrown (e : string).
Arguments Returned {A} a.
Arguments Thrown {A} e.

Definition M (A : Type) : Type := (list Event * Outcome A)%type.

Definition events {A} (m : M A) : list Event := fst m.
Definition value {A} (m : M A) : Outcome A := snd m.

Definition ret {A} (a : A) : M A := ([], Returned a).

Definition bind {A B} (m : M A) (f : A -> M B) : M B :=
  match m with
  | (l, Returned a) => let (l', r) := f a in (l ++ l', r)
  | (l, Thrown e) => (l, Thrown e)
  end.

(** A host call: the event, then what the host answered. *)
Definition call {A} (ev : Event) (answer : Outcome A) : M A := ([ev], answer).

(** [try { m } catch { h }] *)
Definition tryCatch {A} (m : M A) (h : string -> M A) : M A :=
  match m with
  | (l, Thrown e) => let (l', r) := h e in (l ++ l', r)
  | (l, Returned a) => (l, Returned a)
  end.

(** [l.some(f)], left to right, stopping at the first hit. *)
Fixpoint some {A} (f : A -> M bool) (l : list A) : M bool :=
  match l with
  | [] => ret false
  | x :: r => bind (f x) (fun b => if b then ret true else some f r)
  end.

(** The reports among the events. *)
Fixpoint reports (l : list Event) : list ReportDescriptor :=
  match l with
  | [] => []
  | Report d :: r => d :: reports r
  | _ :: r => reports r
  end.

(** The value of a boolean computation, false when it threw. *)
Definition returnsTrue (m : M bool) : bool :=
  match value m with
  | Returned b => b
  | Thrown _ => false
  end.

End Eff.

Notation "x <- m ;; k" := (Eff.bind m (fun x => k))
  (at level 61, m at next level, right associativity).

Import JsString Case Ast Eff.

(* ------------------------------------------------------------------ *)
(** ** The rule *)

(** The rule's options object; [None] is an absent (or [null]) property. *)
Record Options : Type := mkOptions {
  opt_caseType : option CaseType;
  opt_allowedPatterns : option (list string);
  opt_excludeTypes : option (list string);
  opt_componentCreators : option (list string);
  opt_styledLibraries : option (list string);
  opt_hookPattern : option string;
  opt_checkFunctions : option bool;
  opt_ignoreDestructuring : option bool;
  opt_ignoreImports : option bool
}.

(** [{}] *)
Definition emptyOptions : Options :=
  mkOptions None None None None None None None None None.

(** [context.options[0] || {}] *)
Definition optionsOf (context_options : list Options) : Options :=
  match context_options with
  | o :: _ => o
  | [] => emptyOptions
  end.

(** What the rule asks of its surroundings: the regular-expression engine
    ([new RegExp(source).test(subject)]), the scope manager, the source text
    and the type checker.  Each answer is a function of what is asked; the
    three calls made inside the [try] of [hasAnyType] may throw. *)
Record Host : Type := mkHost {
  regExp_test : string -> string -> bool;
  sourceCode_getScope : VariableDeclarator -> option Scope;
  sourceCode_getText : Node -> string;
  esTreeNodeToTSNodeMap_get : BindingName -> Outcome (option TsNode);
  checker_getTypeAtLocation : option TsNode -> Outcome TsType;
  checker_typeToString : TsType -> Outcome string
}.

(** The exits of the visitor, in source order. *)
Inductive Exit : Type :=
| IgnoredDestructuring   (* line 309 *)
| NotAnIdentifier        (* line 312 *)
| IgnoredImport          (* line 317 *)
| AllowedByPattern       (* line 320 *)
| UncheckedFunction      (* line 322 *)
| NeitherAnyNorSimple    (* line 327 *)
| Checked.               (* line 332 *)

(** [x | 0]: the 32-bit integer a bitwise operator sees. *)
Definition toInt32 (x : Z) : Z :=
  ((x + 2 ^ 31) mod 2 ^ 32 - 2 ^ 31)%Z.

Section Rule.

Variable host : Host.
Variable options : Options.

(** *** Resolved options (lines 119-137) *)

Definition caseType : CaseType :=
  match opt_caseType options with
  | Some c => c
  | None => camelCase
  end.

(** The compiled patterns, each kept as its source. *)
Definition allowedPatterns : list string :=
  match opt_allowedPatterns options with
  | Some l => l
  | None => []
  end.

Definition excludeTypes : list string :=
  match opt_excludeTypes options with
  | Some l => l
  | None => []
  end.

Definition componentCreators : list string :=
  match opt_componentCreators options with
  | Some l => l
  | None =>
      ["lazy"; "styled"; "createElement"; "memo"; "forwardRef";
       "createContext"]
  end.

Definition styledLibraries : list string :=
  match opt_styledLibraries options with
  | Some l => l
  | None => ["styled"]
  end.

(** The empty string is falsy, so it disables the pattern as [null] does. *)
Definition hookPattern : option string :=
  match opt_hookPattern options with
  | Some p => if String.eqb p "" then None else Some p
  | None => None
  end.

Definition checkFunctions : bool :=
  match opt_checkFunctions options with Some b => b | None => false end.
Definition ignoreDestructuring : bool :=
  match opt_ignoreDestructuring options with Some b => b | None => false end.
Definition ignoreImports : bool :=
  match opt_ignoreImports options with Some b => b | None => false end.

(** *** Host calls *)

Definition test (pattern subject : string) : M bool :=
  call (RegExpTest pattern subject) (Returned (regExp_test host pattern subject)).

Definition getScope (node : VariableDeclarator) : M (option Scope) :=
  call GetScope (Returned (sourceCode_getScope host node)).

Definition getText (n : Node) : M string :=
  call GetText (Returned (sourceCode_getText host n)).

Definition nodeMapGet (b : BindingName) : M (option TsNode) :=
  call NodeMapGet (esTreeNodeToTSNodeMap_get host b).

Definition getTypeAtLocation (t : option TsNode) : M TsType :=
  call GetTypeAtLocation (checker_getTypeAtLocation host t).

Definition typeToString (t : TsType) : M string :=
  call TypeToString (checker_typeToString host t).

(** *** The closure's functions *)

Definition isValidCase (name : string) : bool := caseValidators caseType name.
Definition convertToCase (name : string) : string := caseConverters caseType name.

Definition isAllowedByPattern (name : string) : M bool :=
  some (fun pattern => test pattern name) allowedPatterns.

(** Lines 188-195, the body of the [try]. *)
Definition resolvedTypeIsAny (node : VariableDeclarator) : M bool :=
  tsNode <- nodeMapGet (id node) ;;
  type <- getTypeAtLocation tsNode ;;
  typeString <- typeToString type ;;
  if includes excludeTypes typeString then ret false
  else ret (negb (Z.eqb (Z.land (toInt32 (flags type)) (Z.shiftl 1 0)) 0)
            || String.eqb typeString "any").

Definition hasAnyType (node : VariableDeclarator) : M bool :=
  match id node with
  | BindingIdentifier _ (Some TSAnyKeyword) => ret true
  | _ => tryCatch (resolvedTypeIsAny node) (fun _ => ret false)
  end.

Fixpoint isComponentCreatorNode (init : Node) : bool :=
  if (List.length componentCreators =? 0) && (List.length styledLibraries =? 0)
  then false
  else
    match init with
    | TaggedTemplateExpression tag =>
        match tag with
        | MemberExpression (Identifier name) => includes styledLibraries name
        | Identifier name => includes styledLibraries name
        | _ => false
        end
    | CallExpression callee =>
        match callee with
        | Identifier name => includes componentCreators name
        | MemberExpression (Identifier name) => includes styledLibraries name
        | CallExpression _ => isComponentCreatorNode callee
        | _ => false
        end
    | _ => false
    end.

Definition isComponentCreator (init : option Node) : bool :=
  match init with
  | None => false
  | Some n => isComponentCreatorNode n
  end.

Definition isMemberExpressionComponent (init : option Node) : M bool :=
  match init with
  | Some (MemberExpression _ as n) =>
      text <- getText n ;;
      ret (testUpperIdentifierBracket text)
  | _ => ret false
  end.

Definition simpleTypes : list string :=
  ["Literal"; "TemplateLiteral"; "ArrayExpression"; "ObjectExpression";
   "Identifier"; "UnaryExpression"; "BinaryExpression"; "LogicalExpression";
   "ConditionalExpression"; "MemberExpression"].

(** Line 268: [hookPattern ? hookPattern.test(name) : false]. *)
Definition hookPatternTest (name : string) : M bool :=
  match hookPattern with
  | Some p => test p name
  | None => ret false
  end.

Definition isSimpleValue (node : VariableDeclarator) : M bool :=
  match init node with
  | None => ret false
  | Some init =>
      excluded <- (if isComponentCreator (Some init) then ret true
                   else isMemberExpressionComponent (Some init)) ;;
      if excluded then ret false
      else if includes simpleTypes (type init) then ret true
      else
        match init with
        | CallExpression (Identifier name) => hookPatternTest name
        | _ => ret (String.eqb (type init) "CallExpression")
        end
  end.

Definition isFunction (node : VariableDeclarator) : bool :=
  match init node with
  | Some ArrowFunctionExpression => true
  | Some FunctionExpression => true
  | _ => false
  end.

Definition isImportedVariable (node : VariableDeclarator) : M bool :=
  match id node with
  | BindingIdentifier varName _ =>
      scope <- getScope node ;;
      let variable :=
        match scope with
        | Some sc => find (fun v => String.eqb (var_name v) varName) (variables sc)
        | None => None
        end in
      ret (match variable with
           | Some v =>
               existsb (fun def => match def with ImportBinding => true | _ => false end)
                 (defs v)
           | None => false
           end)
  | _ => ret false
  end.

Definition reportNamingIssue (varName : string) : M unit :=
  let suggestedName := convertToCase varName in
  if String.eqb suggestedName varName then ret tt
  else
    call (Report (mkReport "incorrectCase" varName caseType suggestedName suggestedName))
      (Returned tt).

Definition VariableDeclarator_visit (node : VariableDeclarator) : M Exit :=
  if negb (isIdentifier (id node)) && ignoreDestructuring
  then ret IgnoredDestructuring
  else
    match id node with
    | BindingIdentifier varName _ =>
        imported <- (if ignoreImports then isImportedVariable node else ret false) ;;
        if imported then ret IgnoredImport
        else
          allowed <- isAllowedByPattern varName ;;
          if allowed then ret AllowedByPattern
          else if isFunction node && negb checkFunctions then ret UncheckedFunction
          else
            hasAny <- hasAnyType node ;;
            isSimple <- isSimpleValue node ;;
            if negb hasAny && negb isSimple then ret NeitherAnyNorSimple
            else if negb (isValidCase varName)
                 then (_ <- reportNamingIssue varName ;; ret Checked)
                 else ret Checked
    | _ => ret NotAnIdentifier
    end.

End Rule.


(* ------------------------------------------------------------------ *)
(** ** Shapes of names *)

Module NameShape.

(** No [[A-Z]] in the string. *)
Definition noUpper (s : string) : bool := all (fun c => negb (isUpper c)) s.

(** No [[a-z]] in the string. *)
Definition noLower (s : string) : bool := all (fun c => negb (isLower c)) s.

(** The string after its first character. *)
Definition rest (s : string) : string :=
  match s with
  | EmptyString => EmptyString
  | String _ r => r
  end.

Definition startsWith (sep : ascii) (s : string) : bool :=
  match s with
  | EmptyString => false
  | String c _ => Ascii.eqb c sep
  end.

(** [/[-_]./.test(s)]: some separator is followed by a character that
    [replaceSeparators] would consume. *)
Fixpoint matchesSeparatorPair (s : string) : bool :=
  match s with
  | EmptyString => false
  | String c r =>
      match r with
      | EmptyString => false
      | String d _ => (isSeparator c && isDot d) || matchesSeparatorPair r
      end
  end.

(** A run of underscores, then one upper-case letter, then no other. *)
Fixpoint underscoresThenOneUpper (s : string) : bool :=
  match s with
  | EmptyString => false
  | String c r =>
      if isUpper c then noUpper r
      else if isUnderscore c then underscoresThenOneUpper r
      else false
  end.

(** The converted names that the converter of [c] leaves alone. *)
Definition settled (c : CaseType) (r : string) : bool :=
  match c with
  | camelCase | PascalCase => negb (matchesSeparatorPair r)
  | snake_case => negb (startsWith "_"%char r)
  | kebab_case => negb (startsWith "-"%char r)
  | UPPER_SNAKE_CASE =>
      match r with
      | EmptyString => true
      | String c t => if isUnderscore c then underscoresThenOneUpper t else noUpper t
      end
  end.

End NameShape.

Import NameShape.

(* ------------------------------------------------------------------ *)
(** ** The decision engine of the specification *)

(** The identity-level guards of the specification's decision engine,
    guards 1 to 5, in its words. *)
Definition passesIdentityGuards (host : Host) (options : Options)
    (node : VariableDeclarator) : bool :=
  let isPattern := negb (isIdentifier (id node)) in
  negb (isPattern && ignoreDestructuring options)
  && negb (isPattern && negb (ignoreDestructuring options))
  && match id node with
     | BindingIdentifier name _ =>
         negb (ignoreImports options && returnsTrue (isImportedVariable host node))
         && negb (returnsTrue (isAllowedByPattern host options name))
         && negb (isFunction node && negb (checkFunctions options))
     | _ => false
     end.

(** A declarator is in scope when no guard excludes it: guards 1 to 5, and
    guard 6, which asks for a dynamic type or a simple shape. *)
Definition inScope (host : Host) (options : Options) (node : VariableDeclarator) : bool :=
  passesIdentityGuards host options node
  && (returnsTrue (hasAnyType host options node)
      || returnsTrue (isSimpleValue host options node)).

(** Whether one of the three calls in the [try] of [hasAnyType] throws. *)
Definition typeQueryThrows (host : Host) (node : VariableDeclarator) : bool :=
  match esTreeNodeToTSNodeMap_get host (id node) with
  | Thrown _ => true
  | Returned tsNode =>
      match checker_getTypeAtLocation host tsNode with
      | Thrown _ => true
      | Returned type =>
          match checker_typeToString host type with
          | Thrown _ => true
          | Returned _ => false
          end
      end
  end.

(** The finding for [name]: what [reportNamingIssue] hands to [context.report]. *)
Definition finding (options : Options) (name : string) : ReportDescriptor :=
  mkReport "incorrectCase" name (caseType options)
    (convertToCase options name) (convertToCase options name).

(** A computation that returns and reports nothing. *)
Definition silent {A} (m : M A) : Prop :=
  exists l a, m = (l, Returned a) /\ reports l = [].

(* ------------------------------------------------------------------ *)
(** ** Sample hosts, options and declarators *)

Module Samples.

(** A host that answers [/^use[A-Z]/] and [/^_/] and knows no other
    pattern, has no scopes, and whose type checker always throws. *)
Definition plainHost : Host := {|
  regExp_test := fun source subject =>
    if String.eqb source "^use[A-Z]" then
      match subject with
      | String "u" (String "s" (String "e" (String c _))) => isUpper c
      | _ => false
      end
    else if String.eqb source "^_" then
      match subject with
      | String "_" _ => true
      | _ => false
      end
    else false;
  sourceCode_getScope := fun _ => None;
  sourceCode_getText := fun _ => "";
  esTreeNodeToTSNodeMap_get := fun _ => Returned None;
  checker_getTypeAtLocation := fun _ => Thrown "TypeError";
  checker_typeToString := fun _ => Returned ""
|}.

(** A host whose type checker resolves every binding to [t], printed [str]. *)
Definition typedHost (t : TsType) (str : string) : Host := {|
  regExp_test := regExp_test plainHost;
  sourceCode_getScope := fun _ => None;
  sourceCode_getText := fun _ => "";
  esTreeNodeToTSNodeMap_get := fun _ => Returned (Some 0);
  checker_getTypeAtLocation := fun _ => Returned t;
  checker_typeToString := fun _ => Returned str
|}.

(** The schema's defaults, written out. *)
Definition defaultOptions : Options := {|
  opt_caseType := Some camelCase;
  opt_allowedPatterns := Some [];
  opt_excludeTypes := Some [];
  opt_componentCreators :=
    Some ["lazy"; "styled"; "createElement"; "memo"; "forwardRef"; "createContext"];
  opt_styledLibraries := Some ["styled"];
  opt_hookPattern := Some "^use[A-Z]";
  opt_checkFunctions := Some false;
  opt_ignoreDestructuring := Some false;
  opt_ignoreImports := Some false
|}.

(** The README's snake_case configuration. *)
Definition snakeOptions : Options := {|
  opt_caseType := Some snake_case;
  opt_allowedPatterns := None;
  opt_excludeTypes := None;
  opt_componentCreators := Some [];
  opt_styledLibraries := Some [];
  opt_hookPattern := None;
  opt_checkFunctions := Some true;
  opt_ignoreDestructuring := None;
  opt_ignoreImports := None
|}.

(** [const my_variable = 123;] *)
Definition my_variable : VariableDeclarator :=
  mkDeclarator (BindingIdentifier "my_variable" None) (Some Literal).

(** [const MyComp = lazy(() => import('./x'));] *)
Definition MyComp : VariableDeclarator :=
  mkDeclarator (BindingIdentifier "MyComp" None)
    (Some (CallExpression (Identifier "lazy"))).

(** [const useCustomState = useState(0);] *)
Definition useCustomState : VariableDeclarator :=
  mkDeclarator (BindingIdentifier "useCustomState" None)
    (Some (CallExpression (Identifier "useState"))).

(** [const API_result = fetchData();] *)
Definition API_result : VariableDeclarator :=
  mkDeclarator (BindingIdentifier "API_result" None)
    (Some (CallExpression (Identifier "fetchData"))).

(** [const { a_b } = props;] *)
Definition destructured : VariableDeclarator :=
  mkDeclarator ObjectPattern (Some (Identifier "props")).

(** [const Some_Thing: any = load();] *)
Definition annotatedAny : VariableDeclarator :=
  mkDeclarator (BindingIdentifier "Some_Thing" (Some TSAnyKeyword))
    (Some (CallExpression (Identifier "load"))).

(** [const $x = 1;] *)
Definition dollar_x : VariableDeclarator :=
  mkDeclarator (BindingIdentifier "$x" None) (Some Literal).

(** [const SOME_VALUE = ...;] in a scope where [SOME_VALUE] is imported. *)
Definition SOME_VALUE : VariableDeclarator :=
  mkDeclarator (BindingIdentifier "SOME_VALUE" None) (Some Literal).

(** [plainHost] with a module scope that imports [SOME_VALUE]. *)
Definition importingHost : Host := {|
  regExp_test := regExp_test plainHost;
  sourceCode_getScope := fun _ =>
    Some (mkScope [mkVariable "used" [VariableDefinition];
                   mkVariable "SOME_VALUE" [ImportBinding; VariableDefinition]]);
  sourceCode_getText := sourceCode_getText plainHost;
  esTreeNodeToTSNodeMap_get := esTreeNodeToTSNodeMap_get plainHost;
  checker_getTypeAtLocation := checker_getTypeAtLocation plainHost;
  checker_typeToString := checker_typeToString plainHost
|}.

(** [const Title_box = styled.div`...`;] *)
Definition Title_box : VariableDeclarator :=
  mkDeclarator (BindingIdentifier "Title_box" None)
    (Some (TaggedTemplateExpression (MemberExpression (Identifier "styled")))).

End Samples.

(* ------------------------------------------------------------------ *)
(** ** Shapes of initializers, of names and of traces *)

(** The patterns [l.some(p)] looks at: up to and including the first hit. *)
Fixpoint upToFirst {A} (p : A -> bool) (l : list A) : list A :=
  match l with
  | [] => []
  | x :: r => if p x then [x] else x :: upToFirst p r
  end.

(** The host calls that are no regular-expression test, and the reports. *)
Definition notRegExpTest (ev : Event) : bool :=
  match ev with
  | RegExpTest _ _ => false
  | _ => true
  end.

(** The initializers a factory produces, by the shape of the syntax: a
    template tagged by a styled-library name or by a member of one, a call
    of a component creator or of a member of a styled library, or a call
    of such a call. *)
Inductive FactoryShape (options : Options) : Node -> Prop :=
| factory_tag_identifier (name : string) :
    In name (styledLibraries options) ->
    FactoryShape options (TaggedTemplateExpression (Identifier name))
| factory_tag_member (name : string) :
    In name (styledLibraries options) ->
    FactoryShape options (TaggedTemplateExpression (MemberExpression (Identifier name)))
| factory_call_identifier (name : string) :
    In name (componentCreators options) ->
    FactoryShape options (CallExpression (Identifier name))
| factory_call_member (name : string) :
    In name (styledLibraries options) ->
    FactoryShape options (CallExpression (MemberExpression (Identifier name)))
| factory_call_call (callee : Node) :
    FactoryShape options (CallExpression callee) ->
    FactoryShape options (CallExpression (CallExpression callee)).

(** The nine entries of [simpleTypes] other than ['MemberExpression']. *)
Definition isPlainKind (n : Node) : bool :=
  match n with
  | Identifier _ | Literal | TemplateLiteral | ArrayExpression | ObjectExpression
  | UnaryExpression | BinaryExpression | LogicalExpression
  | ConditionalExpression => true
  | _ => false
  end.

(** No initializer, a function, or an expression kind the rule never
    names: [let x;], [() => {}], [new Map()], [await load()]. *)
Definition isOpaqueKind (init : option Node) : bool :=
  match init with
  | None => true
  | Some ArrowFunctionExpression | Some FunctionExpression => true
  | Some (OtherExpression _) => true
  | _ => false
  end.

(** Every code unit is an ASCII character: the names on which the case
    mappings of [JsString] are those of JavaScript. *)
Definition isAsciiName (s : string) : bool := all (fun c => code c <? 128) s.

(** [node.id] is an identifier annotated with the [any] keyword: the test
    of lines 183-185. *)
Definition annotatedAny (b : BindingName) : bool :=
  match b with
  | BindingIdentifier _ (Some TSAnyKeyword) => true
  | _ => false
  end.

(** [[a-zA-Z]] *)
Definition isLetter (c : ascii) : bool := isLower c || isUpper c.

(** [[a-zA-Z0-9_]] *)
Definition isWordChar (c : ascii) : bool := isAlnum c || isUnderscore c.

(** Whether the first character exists and satisfies [p]. *)
Definition firstIs (p : ascii -> bool) (s : string) : bool :=
  match s with
  | EmptyString => false
  | String c _ => p c
  end.

(** Every separator is followed by a character that is no separator. *)
Fixpoint wellSeparated (s : string) : bool :=
  match s with
  | EmptyString => true
  | String c r =>
      if isSeparator c then
        match r with
        | EmptyString => false
        | String d _ => negb (isSeparator d) && wellSeparated r
        end
      else wellSeparated r
  end.

(** A letter, then letters, digits and separators, each separator followed
    by a letter or a digit: [my_variable], [my-variable], [MY_VARIABLE]. *)
Definition separatedName (s : string) : bool :=
  testFirstRest isLetter (fun c => isAlnum c || isSeparator c) s
  && wellSeparated s.

(** A host that renders every node as [Icons['Close']]. *)
Definition memberLookupHost : Host := {|
  regExp_test := regExp_test Samples.plainHost;
  sourceCode_getScope := sourceCode_getScope Samples.plainHost;
  sourceCode_getText := fun _ => "Icons['Close']";
  esTreeNodeToTSNodeMap_get := esTreeNodeToTSNodeMap_get Samples.plainHost;
  checker_getTypeAtLocation := checker_getTypeAtLocation Samples.plainHost;
  checker_typeToString := checker_typeToString Samples.plainHost
|}.

(** [const Close_icon = Icons['Close'];] *)
Definition Close_icon : VariableDeclarator :=
  mkDeclarator (BindingIdentifier "Close_icon" None)
    (Some (MemberExpression (Identifier "Icons"))).

(** [const handle_click = () => {};] *)
Definition handle_click : VariableDeclarator :=
  mkDeclarator (BindingIdentifier "handle_click" None) (Some ArrowFunctionExpression).

(** A host whose node map has no entry for any identifier, and whose type
    checker then answers a type flagged [Any] and printed [any]. *)
Definition unavailableHost : Host := {|
  regExp_test := regExp_test Samples.plainHost;
  sourceCode_getScope := sourceCode_getScope Samples.plainHost;
  sourceCode_getText := sourceCode_getText Samples.plainHost;
  esTreeNodeToTSNodeMap_get := fun _ => Returned None;
  checker_getTypeAtLocation := fun _ => Returned (mkTsType 1);
  checker_typeToString := fun _ => Returned "any"
|}.

(** [const Data_store = new Map();] *)
Definition Data_store : VariableDeclarator :=
  mkDeclarator (BindingIdentifier "Data_store" None)
    (Some (OtherExpression NewExpression)).

(** [const Styled_box = styled(Base)(props);] *)
Definition curriedStyled : Node :=
  CallExpression (CallExpression (Identifier "styled")).

(* ------------------------------------------------------------------ *)
(** ** The scenarios of the specification *)

Example convert_my_variable :
  map (fun c => caseConverters c "my_variable")
    [camelCase; PascalCase; snake_case; UPPER_SNAKE_CASE; kebab_case]
  = ["myVariable"; "MyVariable"; "my_variable"; "MY_VARIABLE"; "my_variable"].
Proof. reflexivity. Qed.

Example convert_myVariable :
  map (fun c => caseConverters c "myVariable")
    [camelCase; PascalCase; snake_case; UPPER_SNAKE_CASE; kebab_case]
  = ["myVariable"; "MyVariable"; "my_variable"; "MY_VARIABLE"; "my-variable"].
Proof. reflexivity. Qed.

Example validate_README_names :
  caseValidators camelCase "myVariable" = true
  /\ caseValidators PascalCase "MyVariable" = true
  /\ caseValidators snake_case "my_variable" = true
  /\ caseValidators UPPER_SNAKE_CASE "MY_VARIABLE" = true
  /\ caseValidators kebab_case "my-variable" = true
  /\ caseValidators camelCase "my_variable" = false.
Proof. repeat split; reflexivity. Qed.

Example member_component_text :
  testUpperIdentifierBracket "Icons['Close']" = true
  /\ testUpperIdentifierBracket "Icons.Close" = false
  /\ testUpperIdentifierBracket "icons['close']" = false.
Proof. repeat split; reflexivity. Qed.

Example absent_options :
  caseType (optionsOf []) = camelCase
  /\ hookPattern (optionsOf []) = None
  /\ styledLibraries (optionsOf []) = ["styled"]
  /\ ignoreDestructuring (optionsOf []) = false.
Proof. repeat split; reflexivity. Qed.

Example scenario_my_variable :
  reports (events (VariableDeclarator_visit Samples.plainHost Samples.defaultOptions
                     Samples.my_variable))
  = [mkReport "incorrectCase" "my_variable" camelCase "myVariable" "myVariable"].
Proof. reflexivity. Qed.

Example scenario_lazy_component :
  reports (events (VariableDeclarator_visit Samples.plainHost Samples.defaultOptions
                     Samples.MyComp)) = [].
Proof. reflexivity. Qed.

Example scenario_hook_call :
  value (isSimpleValue Samples.plainHost Samples.defaultOptions Samples.useCustomState)
  = Returned true
  /\ reports (events (VariableDeclarator_visit Samples.plainHost Samples.defaultOptions
                        Samples.useCustomState)) = [].
Proof. split; reflexivity. Qed.

Example scenario_ignored_import :
  VariableDeclarator_visit Samples.importingHost
    (mkOptions (Some camelCase) None None None None None None None (Some true))
    Samples.SOME_VALUE
  = ([GetScope], Returned IgnoredImport).
Proof. reflexivity. Qed.

Example scenario_noop_rename :
  inScope Samples.plainHost Samples.defaultOptions Samples.dollar_x = true
  /\ isValidCase Samples.defaultOptions "$x" = false
  /\ convertToCase Samples.defaultOptions "$x" = "$x"
  /\ reports (events (VariableDeclarator_visit Samples.plainHost Samples.defaultOptions
                        Samples.dollar_x)) = [].
Proof. repeat split; reflexivity. Qed.

Example scenario_excluded_type :
  value (hasAnyType (Samples.typedHost (mkTsType 1) "Promise")
           (mkOptions None None (Some ["Promise"]) None None None None None None)
           Samples.API_result)
  = Returned false.
Proof. reflexivity. Qed.

(* ------------------------------------------------------------------ *)
(** ** The visitor and its guards *)

Section GuardFacts.

Variable host : Host.
Variable options : Options.

(** C7: with both the component-creator list and the styled-library list
    empty, [isComponentCreator] answers false for every initializer,
    absent ones included. *)
Theorem isComponentCreator_disabled (init : option Node) :
  componentCreators options = [] ->
  styledLibraries options = [] ->
  isComponentCreator options init = false.
Proof.
  intros Hc Hs. destruct init as [n|]; [|reflexivity].
  simpl. destruct n; simpl; rewrite Hc, Hs; reflexivity.
Qed.

(** C9: a binding identifier annotated with the [any] keyword has
    [hasAnyType] return true at once: no call to the type checker is made
    and the excluded type names are never looked at. *)
Theorem hasAnyType_any_annotation (node : VariableDeclarator) (name : string) :
  id node = BindingIdentifier name (Some TSAnyKeyword) ->
  hasAnyType host options node = ([], Returned true).
Proof.
  intros Hid. unfold hasAnyType. rewrite Hid. reflexivity.
Qed.

(** C5: a declarator whose target is a pattern leaves the visitor at its
    first exit when [ignoreDestructuring] is set and at its second exit
    otherwise; in both cases nothing was asked of the host (no scope
    lookup, no pattern test, no type query, no source text) and nothing
    was reported. *)
Theorem pattern_target_excluded_first (node : VariableDeclarator) :
  isIdentifier (id node) = false ->
  VariableDeclarator_visit host options node
  = ([], Returned (if ignoreDestructuring options
                   then IgnoredDestructuring else NotAnIdentifier)).
Proof.
  intros Hid. unfold VariableDeclarator_visit.
  destruct (id node); [discriminate| |];
    simpl; destruct (ignoreDestructuring options); reflexivity.
Qed.

(** C3, as the code has it: with the hook pattern disabled the hook test
    answers false, and a call whose callee is a bare identifier is then
    not a simple value: line 268 returns false, so line 271 is reached
    only by the calls whose callee is not a bare identifier. *)
Theorem disabled_hook_identifier_call_not_simple
    (node : VariableDeclarator) (name : string) :
  hookPattern options = None ->
  init node = Some (CallExpression (Identifier name)) ->
  hookPatternTest host options name = ([], Returned false)
  /\ isSimpleValue host options node = ([], Returned false)
  /\ (forall (node' : VariableDeclarator) (callee : Node),
        init node' = Some (CallExpression callee) ->
        (forall n, callee <> Identifier n) ->
        isComponentCreator options (init node') = false ->
        isSimpleValue host options node' = ([], Returned true)).
Proof.
  intros Hhook Hinit. split; [|split].
  - unfold hookPatternTest. rewrite Hhook. reflexivity.
  - unfold isSimpleValue. rewrite Hinit.
    destruct (isComponentCreator options (Some (CallExpression (Identifier name))));
      simpl; [reflexivity|].
    unfold hookPatternTest. rewrite Hhook. reflexivity.
  - intros node' callee Hinit' Hcallee Hfactory.
    unfold isSimpleValue. rewrite Hinit' in *. rewrite Hfactory. simpl.
    destruct callee; try reflexivity.
    exfalso. eapply Hcallee. reflexivity.
Qed.

End GuardFacts.

(** C3, as stated, fails: under the README's snake_case options (hook
    pattern [null], no component creators) the initializer [fetchData()]
    is a call with a bare-identifier callee, yet it is not simple. *)
Lemma disabled_hook_identifier_call_counterexample :
  hookPattern Samples.snakeOptions = None
  /\ init Samples.API_result = Some (CallExpression (Identifier "fetchData"))
  /\ value (hookPatternTest Samples.plainHost Samples.snakeOptions "fetchData")
     = Returned false
  /\ value (isSimpleValue Samples.plainHost Samples.snakeOptions Samples.API_result)
     <> Returned true.
Proof.
  repeat split; try reflexivity. vm_compute. discriminate.
Qed.

Lemma isComponentCreator_disabled_witness :
  isComponentCreator Samples.snakeOptions
    (Some (TaggedTemplateExpression (Identifier "styled"))) = false.
Proof.
  apply (isComponentCreator_disabled Samples.snakeOptions); reflexivity.
Defined.

Lemma hasAnyType_any_annotation_witness :
  hasAnyType (Samples.typedHost (mkTsType 0) "any")
    (mkOptions None None (Some ["any"]) None None None None None None)
    Samples.annotatedAny
  = ([], Returned true).
Proof.
  apply (hasAnyType_any_annotation _ _ Samples.annotatedAny "Some_Thing").
  reflexivity.
Defined.

Lemma pattern_target_excluded_first_witness :
  VariableDeclarator_visit Samples.plainHost
    (mkOptions None (Some ["^_"]) None None None None None (Some true) (Some false))
    Samples.destructured
  = ([], Returned IgnoredDestructuring).
Proof.
  apply (pattern_target_excluded_first Samples.plainHost
           (mkOptions None (Some ["^_"]) None None None None None (Some true) (Some false))
           Samples.destructured).
  reflexivity.
Defined.

Lemma disabled_hook_identifier_call_not_simple_witness :
  hookPatternTest Samples.plainHost Samples.snakeOptions "fetchData" = ([], Returned false)
  /\ isSimpleValue Samples.plainHost Samples.snakeOptions Samples.API_result
     = ([], Returned false).
Proof.
  destruct (disabled_hook_identifier_call_not_simple Samples.plainHost
              Samples.snakeOptions Samples.API_result "fetchData")
    as [H1 [H2 _]]; [reflexivity | reflexivity |].
  split; assumption.
Defined.

(* ------------------------------------------------------------------ *)
(** ** Computations that neither report nor throw *)

Lemma reports_app (l l' : list Event) :
  reports (l ++ l') = reports l ++ reports l'.
Proof.
  induction l as [|ev l IH]; simpl; [reflexivity|].
  destruct ev; simpl; rewrite ?IH; reflexivity.
Qed.

Lemma reports_In (l : list Event) (d : ReportDescriptor) :
  In d (reports l) <-> In (Report d) l.
Proof.
  induction l as [|ev l IH]; simpl; [tauto|].
  destruct ev; simpl; rewrite IH; split; intros H;
    try (right; exact H); try (destruct H as [H|H]; [discriminate|exact H]).
  - destruct H as [H|H]; [left; congruence | right; exact H].
  - destruct H as [H|H]; [left; congruence | right; exact H].
Qed.

Lemma silent_ret {A} (a : A) : silent (ret a).
Proof. exists [], a. split; reflexivity. Qed.

Lemma silent_bind {A B} (m : M A) (f : A -> M B) :
  silent m -> (forall a, silent (f a)) -> silent (bind m f).
Proof.
  intros (l & a & -> & Hl) Hf.
  destruct (Hf a) as (l' & b & Hfa & Hl').
  exists (l ++ l'), b. simpl. rewrite Hfa. split; [reflexivity|].
  rewrite reports_app, Hl, Hl'. reflexivity.
Qed.

Lemma silent_tryCatch {A} (m : M A) (h : string -> M A) :
  reports (events m) = [] -> (forall e, silent (h e)) -> silent (tryCatch m h).
Proof.
  destruct m as [l [a|e]]; simpl; intros Hl Hh.
  - exists l, a. split; [reflexivity | exact Hl].
  - destruct (Hh e) as (l' & b & Hhe & Hl').
    exists (l ++ l'), b. rewrite Hhe. split; [reflexivity|].
    rewrite reports_app, Hl, Hl'. reflexivity.
Qed.

Lemma reports_bind {A B} (m : M A) (f : A -> M B) :
  reports (events m) = [] ->
  (forall a, reports (events (f a)) = []) ->
  reports (events (bind m f)) = [].
Proof.
  destruct m as [l [a|e]]; simpl; intros Hl Hf; [|exact Hl].
  specialize (Hf a). destruct (f a) as [l' r]. simpl in *.
  rewrite reports_app, Hl, Hf. reflexivity.
Qed.

Section Silence.

Variable host : Host.
Variable options : Options.

Lemma silent_test (pattern subject : string) :
  silent (test host pattern subject).
Proof. eexists _, _. split; reflexivity. Qed.

Lemma silent_some {A} (f : A -> M bool) (l : list A) :
  (forall x, silent (f x)) -> silent (some f l).
Proof.
  intros Hf. induction l as [|x l IH]; simpl; [apply silent_ret|].
  apply silent_bind; [apply Hf|].
  intros [|]; [apply silent_ret | exact IH].
Qed.

Lemma silent_isAllowedByPattern (name : string) :
  silent (isAllowedByPattern host options name).
Proof. apply silent_some. intros p. apply silent_test. Qed.

Lemma silent_isImportedVariable (node : VariableDeclarator) :
  silent (isImportedVariable host node).
Proof.
  unfold isImportedVariable. destruct (id node); try apply silent_ret.
  eexists _, _. split; reflexivity.
Qed.

Lemma reports_resolvedTypeIsAny (node : VariableDeclarator) :
  reports (events (resolvedTypeIsAny host options node)) = [].
Proof.
  unfold resolvedTypeIsAny, nodeMapGet, getTypeAtLocation, typeToString, call.
  apply reports_bind; [reflexivity|]. intros tsNode.
  apply reports_bind; [reflexivity|]. intros ty.
  apply reports_bind; [reflexivity|]. intros str.
  destruct (includes _ _); reflexivity.
Qed.

Lemma silent_hasAnyType (node : VariableDeclarator) :
  silent (hasAnyType host options node).
Proof.
  unfold hasAnyType.
  assert (Hcatch : silent (tryCatch (resolvedTypeIsAny host options node)
                             (fun _ => ret false))).
  { apply silent_tryCatch; [apply reports_resolvedTypeIsAny|].
    intros _. apply silent_ret. }
  destruct (id node) as [name [[]|]| |]; try exact Hcatch.
  apply silent_ret.
Qed.

Lemma silent_isMemberExpressionComponent (init : option Node) :
  silent (isMemberExpressionComponent host init).
Proof.
  destruct init as [[]|]; try apply silent_ret.
  eexists _, _. split; reflexivity.
Qed.

Lemma silent_hookPatternTest (name : string) :
  silent (hookPatternTest host options name).
Proof.
  unfold hookPatternTest.
  destruct (hookPattern options); [apply silent_test | apply silent_ret].
Qed.

Lemma silent_isSimpleValue (node : VariableDeclarator) :
  silent (isSimpleValue host options node).
Proof.
  unfold isSimpleValue. destruct (init node) as [n|]; [|apply silent_ret].
  apply silent_bind.
  - destruct (isComponentCreator options (Some n));
      [apply silent_ret | apply silent_isMemberExpressionComponent].
  - intros [|]; [apply silent_ret|].
    destruct (includes simpleTypes (type n)); [apply silent_ret|].
    destruct n; try apply silent_ret.
    destruct n; try apply silent_ret.
    apply silent_hookPatternTest.
Qed.

End Silence.

(* ------------------------------------------------------------------ *)
(** ** The decision of the visitor *)

Section Decision.

Variable host : Host.
Variable options : Options.

Lemma reportNamingIssue_run (name : string) :
  reportNamingIssue options name
  = (if String.eqb (convertToCase options name) name then []
     else [Report (finding options name)], Returned tt).
Proof.
  unfold reportNamingIssue, finding.
  destruct (String.eqb (convertToCase options name) name); reflexivity.
Qed.

(** The reports of a visit, computed from the guards. *)
Lemma visit_reports (node : VariableDeclarator) :
  reports (events (VariableDeclarator_visit host options node))
  = match id node with
    | BindingIdentifier name _ =>
        if inScope host options node
           && negb (isValidCase options name)
           && negb (String.eqb (convertToCase options name) name)
        then [finding options name]
        else []
    | _ => []
    end.
Proof.
  unfold VariableDeclarator_visit, inScope, passesIdentityGuards.
  destruct (id node) as [name ann| |] eqn:Hid;
    try (simpl; destruct (ignoreDestructuring options); reflexivity).
  destruct (silent_isImportedVariable host node) as (l1 & b1 & E1 & R1).
  destruct (silent_isAllowedByPattern host options name) as (l2 & b2 & E2 & R2).
  destruct (silent_hasAnyType host options node) as (l3 & b3 & E3 & R3).
  destruct (silent_isSimpleValue host options node) as (l4 & b4 & E4 & R4).
  rewrite E1, E2, E3, E4, reportNamingIssue_run.
  unfold returnsTrue, value. simpl.
  destruct (ignoreImports options), b1, b2,
    (isFunction node), (checkFunctions options), b3, b4,
    (isValidCase options name),
    (String.eqb (convertToCase options name) name);
    simpl; rewrite ?reports_app, ?R1, ?R2, ?R3, ?R4; reflexivity.
Qed.

(** A visit always returns: nothing thrown inside it escapes. *)
Lemma visit_returns (node : VariableDeclarator) :
  exists x, value (VariableDeclarator_visit host options node) = Returned x.
Proof.
  unfold VariableDeclarator_visit.
  destruct (id node) as [name ann| |] eqn:Hid;
    try (simpl; destruct (ignoreDestructuring options); eexists; reflexivity).
  destruct (silent_isImportedVariable host node) as (l1 & b1 & E1 & R1).
  destruct (silent_isAllowedByPattern host options name) as (l2 & b2 & E2 & R2).
  destruct (silent_hasAnyType host options node) as (l3 & b3 & E3 & R3).
  destruct (silent_isSimpleValue host options node) as (l4 & b4 & E4 & R4).
  rewrite E1, E2, E3, E4, reportNamingIssue_run. simpl.
  destruct (ignoreImports options), b1, b2,
    (isFunction node), (checkFunctions options), b3, b4,
    (isValidCase options name);
    simpl; eexists; reflexivity.
Qed.

(** C1: a visit reports a finding exactly when the declarator is in
    scope, its name does not validate and the converted name differs
    from it, and the finding is then the one for that name; when the
    converted name equals the name nothing is reported, whatever the
    validator says. *)
Theorem finding_iff_in_scope_invalid_and_renamed (node : VariableDeclarator) :
  (forall d : ReportDescriptor,
      In (Report d) (events (VariableDeclarator_visit host options node))
      <-> exists name ann,
            id node = BindingIdentifier name ann
            /\ inScope host options node = true
            /\ isValidCase options name = false
            /\ convertToCase options name <> name
            /\ d = finding options name)
  /\ (forall name ann,
        id node = BindingIdentifier name ann ->
        convertToCase options name = name ->
        reports (events (VariableDeclarator_visit host options node)) = []).
Proof.
  split.
  - intros d. rewrite <- reports_In, visit_reports.
    destruct (id node) as [name ann| |].
    + destruct (inScope host options node) eqn:Hs;
        destruct (isValidCase options name) eqn:Hv;
        destruct (String.eqb (convertToCase options name) name) eqn:Hc;
        simpl; split;
        try (intros []; fail);
        try (intros (n & a & Hid & H1 & H2 & H3 & H4);
             injection Hid as <- <-;
             solve [congruence | apply String.eqb_eq in Hc; contradiction]).
      * intros [<-|[]]. exists name, ann.
        apply String.eqb_neq in Hc. repeat split; assumption.
      * intros (n & a & Hid & _ & _ & _ & ->).
        injection Hid as <- <-. left. reflexivity.
    + simpl. split; [intros [] | intros (n & a & Hid & _); discriminate].
    + simpl. split; [intros [] | intros (n & a & Hid & _); discriminate].
  - intros name ann Hid Hc. rewrite visit_reports, Hid.
    apply String.eqb_eq in Hc. rewrite Hc, andb_false_r. reflexivity.
Qed.

End Decision.

Section Classifiers.

Variable host : Host.
Variable options : Options.

Lemma hasAnyType_value (node : VariableDeclarator) :
  value (hasAnyType host options node)
  = Returned (returnsTrue (hasAnyType host options node)).
Proof.
  destruct (silent_hasAnyType host options node) as (l & b & E & _).
  rewrite E. reflexivity.
Qed.

Lemma resolvedTypeIsAny_throws (node : VariableDeclarator) :
  typeQueryThrows host node = true ->
  exists e, value (resolvedTypeIsAny host options node) = Thrown e.
Proof.
  unfold typeQueryThrows, resolvedTypeIsAny, nodeMapGet, getTypeAtLocation,
    typeToString, call.
  destruct (esTreeNodeToTSNodeMap_get host (id node)) as [tsNode|e];
    [|intros _; exists e; reflexivity].
  simpl. destruct (checker_getTypeAtLocation host tsNode) as [ty|e];
    [|intros _; exists e; reflexivity].
  simpl. destruct (checker_typeToString host ty) as [str|e];
    [discriminate | intros _; exists e; reflexivity].
Qed.

(** C6, as the code has it: when the type query of a declarator is made
    (its identifier is not annotated [any]) and one of its calls throws,
    [hasAnyType]
    returns false, the visit returns normally, and what it reports is
    decided by the identity guards and the shape classifier alone. *)
Theorem type_query_failure_is_contained
    (node : VariableDeclarator) (name : string) (ann : option TypeNode) :
  id node = BindingIdentifier name ann ->
  ann <> Some TSAnyKeyword ->
  typeQueryThrows host node = true ->
  value (hasAnyType host options node) = Returned false
  /\ (exists x, value (VariableDeclarator_visit host options node) = Returned x)
  /\ reports (events (VariableDeclarator_visit host options node))
     = if passesIdentityGuards host options node
          && returnsTrue (isSimpleValue host options node)
          && negb (isValidCase options name)
          && negb (String.eqb (convertToCase options name) name)
       then [finding options name]
       else [].
Proof.
  intros Hid Hann Hthrows.
  assert (Hany : value (hasAnyType host options node) = Returned false).
  { destruct (resolvedTypeIsAny_throws node Hthrows) as [e He].
    unfold hasAnyType. rewrite Hid.
    destruct (resolvedTypeIsAny host options node) as [l [b|e']];
      simpl in He; [discriminate|].
    destruct ann as [[]|]; try reflexivity. congruence. }
  split; [exact Hany|]. split; [apply visit_returns|].
  rewrite visit_reports, Hid. unfold inScope, returnsTrue at 1.
  rewrite Hany. reflexivity.
Qed.

(** C10: a tagged-template initializer is never a simple value, whatever
    its tag and whatever the styled-library names; such a declarator is
    in scope, and is reported, only when [hasAnyType] returns true. *)
Theorem tagged_template_never_simple (node : VariableDeclarator) (tag : Node) :
  init node = Some (TaggedTemplateExpression tag) ->
  isSimpleValue host options node = ([], Returned false)
  /\ (inScope host options node = true ->
      value (hasAnyType host options node) = Returned true)
  /\ (forall d : ReportDescriptor,
        In (Report d) (events (VariableDeclarator_visit host options node)) ->
        value (hasAnyType host options node) = Returned true).
Proof.
  intros Hinit.
  assert (Hsimple : isSimpleValue host options node = ([], Returned false)).
  { unfold isSimpleValue. rewrite Hinit.
    destruct (isComponentCreator options (Some (TaggedTemplateExpression tag)));
      reflexivity. }
  assert (Hscope : inScope host options node = true ->
                   value (hasAnyType host options node) = Returned true).
  { unfold inScope. rewrite Hsimple, hasAnyType_value.
    unfold returnsTrue at 2. simpl. rewrite orb_false_r.
    intros H. apply andb_prop in H. destruct H as [_ ->]. reflexivity. }
  split; [exact Hsimple|]. split; [exact Hscope|].
  intros d Hd. apply Hscope.
  apply reports_In in Hd. rewrite visit_reports in Hd.
  destruct (id node); try contradiction.
  destruct (inScope host options node); [reflexivity|contradiction].
Qed.

End Classifiers.

Lemma type_query_failure_is_contained_witness :
  value (hasAnyType Samples.plainHost Samples.defaultOptions Samples.my_variable)
  = Returned false
  /\ (exists x, value (VariableDeclarator_visit Samples.plainHost Samples.defaultOptions
                         Samples.my_variable) = Returned x)
  /\ reports (events (VariableDeclarator_visit Samples.plainHost Samples.defaultOptions
                        Samples.my_variable))
     = [finding Samples.defaultOptions "my_variable"].
Proof.
  apply (type_query_failure_is_contained Samples.plainHost Samples.defaultOptions
           Samples.my_variable "my_variable" None).
  - reflexivity.
  - discriminate.
  - reflexivity.
Defined.

(** C6, as stated, fails where type resolution is unavailable without
    anything being thrown: the node map has no entry for the identifier,
    the checker answers a type flagged [Any] for the missing node, and
    [hasAnyType] returns true; [new Map()] is not a simple value, so the
    finding comes from the type path. *)
Lemma type_resolution_unavailable_counterexample :
  esTreeNodeToTSNodeMap_get unavailableHost (id Data_store) = Returned None
  /\ typeQueryThrows unavailableHost Data_store = false
  /\ value (hasAnyType unavailableHost Samples.defaultOptions Data_store)
     = Returned true
  /\ value (hasAnyType unavailableHost Samples.defaultOptions Data_store)
     <> Returned false
  /\ value (isSimpleValue unavailableHost Samples.defaultOptions Data_store)
     = Returned false
  /\ reports (events (VariableDeclarator_visit unavailableHost Samples.defaultOptions
                        Data_store))
     = [finding Samples.defaultOptions "Data_store"].
Proof.
  repeat split; try reflexivity. vm_compute. discriminate.
Qed.

Lemma tagged_template_never_simple_witness :
  isSimpleValue (Samples.typedHost (mkTsType 1) "any") Samples.defaultOptions
    Samples.Title_box = ([], Returned false)
  /\ value (hasAnyType (Samples.typedHost (mkTsType 1) "any") Samples.defaultOptions
              Samples.Title_box) = Returned true.
Proof.
  destruct (tagged_template_never_simple (Samples.typedHost (mkTsType 1) "any")
              Samples.defaultOptions Samples.Title_box
              (MemberExpression (Identifier "styled")) eq_refl)
    as [Hsimple [Hscope _]].
  split; [exact Hsimple | apply Hscope; reflexivity].
Defined.

(* ------------------------------------------------------------------ *)
(** ** The case table: validators against converters *)

Ltac each_char c :=
  destruct c as [[] [] [] [] [] [] [] []]; vm_compute; try reflexivity; try discriminate.

Section Characters.

Lemma toLowerCaseChar_not_upper (c : ascii) : isUpper (toLowerCaseChar c) = false.
Proof. each_char c. Qed.

Lemma toUpperCaseChar_not_lower (c : ascii) : isLower (toUpperCaseChar c) = false.
Proof. each_char c. Qed.

Lemma toLowerCaseChar_idem (c : ascii) :
  toLowerCaseChar (toLowerCaseChar c) = toLowerCaseChar c.
Proof. each_char c. Qed.

Lemma toUpperCaseChar_idem (c : ascii) :
  toUpperCaseChar (toUpperCaseChar c) = toUpperCaseChar c.
Proof. each_char c. Qed.

Lemma isDot_toLowerCaseChar (c : ascii) : isDot (toLowerCaseChar c) = isDot c.
Proof. each_char c. Qed.

Lemma isDot_toUpperCaseChar (c : ascii) : isDot (toUpperCaseChar c) = isDot c.
Proof. each_char c. Qed.

Lemma toLowerCaseChar_fixed (c : ascii) : isUpper c = false -> toLowerCaseChar c = c.
Proof. unfold toLowerCaseChar. intros ->. reflexivity. Qed.

Lemma toUpperCaseChar_fixed (c : ascii) : isLower c = false -> toUpperCaseChar c = c.
Proof. unfold toUpperCaseChar. intros ->. reflexivity. Qed.

Lemma isLower_not_upper (c : ascii) : isLower c = true -> isUpper c = false.
Proof. each_char c. Qed.

Lemma isUpper_not_lower (c : ascii) : isUpper c = true -> isLower c = false.
Proof. each_char c. Qed.

Lemma isAlnum_not_separator (c : ascii) : isAlnum c = true -> isSeparator c = false.
Proof. each_char c. Qed.

Lemma isUpper_not_underscore (c : ascii) : isUpper c = true -> isUnderscore c = false.
Proof. each_char c. Qed.

Lemma isDigit_caseless (c : ascii) :
  isDigit c = true -> isUpper c = false /\ isLower c = false.
Proof. each_char c; split; reflexivity. Qed.

Lemma isUnderscore_caseless (c : ascii) :
  isUnderscore c = true -> isUpper c = false /\ isLower c = false.
Proof. each_char c; split; reflexivity. Qed.

Lemma isHyphen_caseless (c : ascii) :
  isHyphen c = true -> isUpper c = false /\ isLower c = false.
Proof. each_char c; split; reflexivity. Qed.

Lemma isLower_isDot (c : ascii) : isLower c = true -> isDot c = true.
Proof. each_char c. Qed.

Lemma isUpper_isDot (c : ascii) : isUpper c = true -> isDot c = true.
Proof. each_char c. Qed.

End Characters.

Section Strings.

Lemma all_impl (p q : ascii -> bool) (s : string) :
  (forall c, p c = true -> q c = true) -> all p s = true -> all q s = true.
Proof.
  intros Hpq. induction s as [|c r IH]; simpl; [reflexivity|].
  intros H. apply andb_prop in H. destruct H as [Hc Hr].
  rewrite (Hpq c Hc), (IH Hr). reflexivity.
Qed.

Lemma string_neq_rest (c : ascii) (r : string) : r <> String c r.
Proof.
  intros H. apply (f_equal String.length) in H. simpl in H. lia.
Qed.

(** [replace(/([A-Z])/g, ...)] *)

Lemma insertBeforeUpper_length (sep : ascii) (s : string) :
  String.length s <= String.length (insertBeforeUpper sep s).
Proof.
  induction s as [|c r IH]; simpl; [lia|].
  destruct (isUpper c); simpl; lia.
Qed.

Lemma insertBeforeUpper_fixed_iff (sep : ascii) (s : string) :
  insertBeforeUpper sep s = s <-> noUpper s = true.
Proof.
  unfold noUpper. induction s as [|c r IH]; simpl; [tauto|].
  destruct (isUpper c) eqn:Hc; simpl.
  - split; [|discriminate]. intros H.
    apply (f_equal String.length) in H. simpl in H.
    pose proof (insertBeforeUpper_length sep r). lia.
  - rewrite <- IH. split; [intros H; injection H; auto | intros ->; reflexivity].
Qed.

Lemma noUpper_insertBeforeUpper (sep : ascii) (s : string) :
  noUpper s = true -> insertBeforeUpper sep s = s.
Proof. apply insertBeforeUpper_fixed_iff. Qed.

Lemma noLower_insertBeforeUpper (sep : ascii) (s : string) :
  isLower sep = false -> noLower s = true ->
  noLower (insertBeforeUpper sep s) = true.
Proof.
  unfold noLower. intros Hsep. induction s as [|c r IH]; simpl; [reflexivity|].
  intros H. apply andb_prop in H. destruct H as [Hc Hr].
  destruct (isUpper c); simpl; rewrite ?Hsep, Hc, (IH Hr); reflexivity.
Qed.

(** [toLowerCase], [toUpperCase] *)

Lemma toLowerCase_fixed (s : string) : noUpper s = true -> toLowerCase s = s.
Proof.
  unfold noUpper. induction s as [|c r IH]; simpl; [reflexivity|].
  intros H. apply andb_prop in H. destruct H as [Hc Hr].
  apply negb_true_iff in Hc.
  rewrite (toLowerCaseChar_fixed c Hc), (IH Hr). reflexivity.
Qed.

Lemma toUpperCase_fixed (s : string) : noLower s = true -> toUpperCase s = s.
Proof.
  unfold noLower. induction s as [|c r IH]; simpl; [reflexivity|].
  intros H. apply andb_prop in H. destruct H as [Hc Hr].
  apply negb_true_iff in Hc.
  rewrite (toUpperCaseChar_fixed c Hc), (IH Hr). reflexivity.
Qed.

Lemma noUpper_toLowerCase (s : string) : noUpper (toLowerCase s) = true.
Proof.
  unfold noUpper. induction s as [|c r IH]; simpl; [reflexivity|].
  rewrite toLowerCaseChar_not_upper, IH. reflexivity.
Qed.

Lemma noLower_toUpperCase (s : string) : noLower (toUpperCase s) = true.
Proof.
  unfold noLower. induction s as [|c r IH]; simpl; [reflexivity|].
  rewrite toUpperCaseChar_not_lower, IH. reflexivity.
Qed.

(** [replace(/^_/, '')], [replace(/^-/, '')] *)

Lemma all_dropLeading (p : ascii -> bool) (sep : ascii) (s : string) :
  all p s = true -> all p (dropLeading sep s) = true.
Proof.
  destruct s as [|c r]; simpl; [reflexivity|].
  intros H. destruct (Ascii.eqb c sep); simpl; [|exact H].
  apply andb_prop in H. tauto.
Qed.

Lemma dropLeading_fixed_iff (sep : ascii) (s : string) :
  dropLeading sep s = s <-> startsWith sep s = false.
Proof.
  destruct s as [|c r]; simpl; [tauto|].
  destruct (Ascii.eqb c sep); split; try reflexivity; try discriminate.
  intros H. exfalso. exact (string_neq_rest c r H).
Qed.

(** [replace(/^(.)/, f)] *)

Lemma replaceFirst_length (f : ascii -> ascii) (s : string) :
  String.length (replaceFirst f s) = String.length s.
Proof. destruct s as [|c r]; simpl; [|destruct (isDot c)]; reflexivity. Qed.

Lemma replaceFirst_idem (f : ascii -> ascii) (s : string) :
  (forall c, f (f c) = f c) -> (forall c, isDot (f c) = isDot c) ->
  replaceFirst f (replaceFirst f s) = replaceFirst f s.
Proof.
  intros Hf Hdot. destruct s as [|c r]; simpl; [reflexivity|].
  destruct (isDot c) eqn:Hc; simpl.
  - rewrite Hdot, Hc, Hf. reflexivity.
  - rewrite Hc. reflexivity.
Qed.

(** [replace(/[-_](.)/g, ...)] *)

Lemma replaceSeparators_fixed (s : string) :
  all (fun c => negb (isSeparator c)) s = true -> replaceSeparators s = s.
Proof.
  induction s as [|c r IH]; simpl; [reflexivity|].
  intros H. apply andb_prop in H. destruct H as [Hc Hr].
  apply negb_true_iff in Hc. rewrite Hc, (IH Hr). reflexivity.
Qed.

Lemma replaceSeparators_step (c : ascii) (r : string) :
  replaceSeparators (String c r)
  = if isSeparator c then
      match r with
      | String d r' =>
          if isDot d then String (toUpperCaseChar d) (replaceSeparators r')
          else String c (replaceSeparators r)
      | EmptyString => String c EmptyString
      end
    else String c (replaceSeparators r).
Proof. reflexivity. Qed.

Lemma replaceSeparators_shrinks (s : string) :
  (String.length (replaceSeparators s) <= String.length s
   /\ (matchesSeparatorPair s = true ->
       String.length (replaceSeparators s) < String.length s))
  /\ (forall c,
        String.length (replaceSeparators (String c s)) <= String.length (String c s)
        /\ (matchesSeparatorPair (String c s) = true ->
            String.length (replaceSeparators (String c s))
            < String.length (String c s))).
Proof.
  induction s as [|a r [[IHle IHlt] IHc]].
  - split; [split; simpl; [lia|discriminate]|].
    intros c. simpl. destruct (isSeparator c); simpl; split; try lia; discriminate.
  - split; [apply IHc|].
    intros c. destruct (IHc a) as [Hle Hlt].
    rewrite replaceSeparators_step.
    change (matchesSeparatorPair (String c (String a r)))
      with ((isSeparator c && isDot a) || matchesSeparatorPair (String a r)).
    destruct (isSeparator c); simpl andb.
    + destruct (isDot a).
      * cbn [String.length] in *. split; intros; lia.
      * cbn [String.length orb] in *. split; [lia|]. intros H. apply Hlt in H. lia.
    + cbn [String.length orb] in *. split; [lia|]. intros H. apply Hlt in H. lia.
Qed.

Lemma replaceSeparators_no_pair (s : string) :
  (matchesSeparatorPair s = false -> replaceSeparators s = s)
  /\ (forall c, matchesSeparatorPair (String c s) = false ->
                replaceSeparators (String c s) = String c s).
Proof.
  induction s as [|a r [IH IHc]].
  - split; [reflexivity|]. intros c _. simpl. destruct (isSeparator c); reflexivity.
  - split; [apply IHc|].
    intros c. rewrite replaceSeparators_step.
    change (matchesSeparatorPair (String c (String a r)))
      with ((isSeparator c && isDot a) || matchesSeparatorPair (String a r)).
    intros H. apply orb_false_elim in H. destruct H as [Hpair Hrest].
    rewrite (IHc a Hrest).
    destruct (isSeparator c); [|reflexivity].
    simpl in Hpair. rewrite Hpair. reflexivity.
Qed.

Lemma replaceSeparators_fixed_iff (s : string) :
  replaceSeparators s = s <-> matchesSeparatorPair s = false.
Proof.
  split; [|apply replaceSeparators_no_pair].
  intros H. destruct (matchesSeparatorPair s) eqn:Hm; [|reflexivity].
  apply (proj1 (replaceSeparators_shrinks s)) in Hm. rewrite H in Hm. lia.
Qed.

(** The UPPER_SNAKE_CASE oddity: a run of underscores before the only
    upper-case letter moves the inserted underscore to the front. *)
Lemma insertBeforeUpper_shifts_iff (s : string) :
  insertBeforeUpper "_"%char s = String "_"%char s
  <-> underscoresThenOneUpper s = true.
Proof.
  induction s as [|c r IH]; simpl; [split; discriminate|].
  destruct (isUpper c) eqn:Hc.
  - rewrite <- (insertBeforeUpper_fixed_iff "_"%char r).
    split; [intros H; injection H; auto | intros ->; reflexivity].
  - unfold isUnderscore. destruct (Ascii.eqb c "_"%char) eqn:Hu.
    + apply Ascii.eqb_eq in Hu. subst c. rewrite <- IH.
      split; [intros H; injection H; auto | intros ->; reflexivity].
    + split; [|discriminate]. intros H. injection H as H _.
      subst c. discriminate.
Qed.

End Strings.

Section CaseTable.

Lemma valid_lower_start (tail : ascii -> bool) (n : string) :
  testFirstRest isLower tail n = true ->
  exists c r, n = String c r /\ isLower c = true /\ all tail r = true.
Proof.
  destruct n as [|c r]; simpl; [discriminate|].
  intros H. apply andb_prop in H. exists c, r. tauto.
Qed.

Lemma valid_upper_start (tail : ascii -> bool) (n : string) :
  testFirstRest isUpper tail n = true ->
  exists c r, n = String c r /\ isUpper c = true /\ all tail r = true.
Proof.
  destruct n as [|c r]; simpl; [discriminate|].
  intros H. apply andb_prop in H. exists c, r. tauto.
Qed.

Lemma camel_shaped_fixed (f : ascii -> ascii) (c : ascii) (r : string) :
  isDot c = true -> f c = c -> isSeparator c = false -> all isAlnum r = true ->
  replaceFirst f (replaceSeparators (String c r)) = String c r.
Proof.
  intros Hdot Hf Hsep Hr.
  rewrite replaceSeparators_fixed.
  - simpl. rewrite Hdot, Hf. reflexivity.
  - simpl. rewrite Hsep. simpl.
    apply (all_impl isAlnum); [|exact Hr].
    intros d Hd. rewrite (isAlnum_not_separator d Hd). reflexivity.
Qed.

Lemma lower_separated_fixed (sep : ascii) (isSep : ascii -> bool) (c : ascii) (r : string) :
  (forall d, isSep d = true -> isUpper d = false) ->
  isLower c = true -> Ascii.eqb c sep = false ->
  all (fun d => isLower d || isDigit d || isSep d) r = true ->
  dropLeading sep (toLowerCase (insertBeforeUpper sep (String c r))) = String c r.
Proof.
  intros Hsep Hc Hne Hr.
  assert (Hno : noUpper (String c r) = true).
  { unfold noUpper. simpl. rewrite (isLower_not_upper c Hc). simpl.
    apply (all_impl (fun d => isLower d || isDigit d || isSep d)); [|exact Hr].
    intros d Hd. apply negb_true_iff.
    apply orb_prop in Hd. destruct Hd as [Hd|Hd]; [|exact (Hsep d Hd)].
    apply orb_prop in Hd. destruct Hd as [Hd|Hd];
      [exact (isLower_not_upper d Hd) | exact (proj1 (isDigit_caseless d Hd))]. }
  rewrite (noUpper_insertBeforeUpper sep _ Hno), (toLowerCase_fixed _ Hno).
  simpl. rewrite Hne. reflexivity.
Qed.

Lemma upper_snake_shaped (c : ascii) (r : string) :
  isUpper c = true ->
  all (fun d => isUpper d || isDigit d || isUnderscore d) r = true ->
  caseConverters UPPER_SNAKE_CASE (String c r)
  = String c (insertBeforeUpper "_"%char r).
Proof.
  intros Hc Hr.
  assert (Hlow : noLower (String c r) = true).
  { unfold noLower. simpl. rewrite (isUpper_not_lower c Hc). simpl.
    apply (all_impl (fun d => isUpper d || isDigit d || isUnderscore d)); [|exact Hr].
    intros d Hd. apply negb_true_iff.
    apply orb_prop in Hd. destruct Hd as [Hd|Hd];
      [|exact (proj2 (isUnderscore_caseless d Hd))].
    apply orb_prop in Hd. destruct Hd as [Hd|Hd];
      [exact (isUpper_not_lower d Hd) | exact (proj2 (isDigit_caseless d Hd))]. }
  unfold caseConverters.
  rewrite toUpperCase_fixed by (apply noLower_insertBeforeUpper; [reflexivity|exact Hlow]).
  simpl. rewrite Hc. reflexivity.
Qed.

(** C2, as the code has it: under camelCase, PascalCase, snake_case and
    kebab-case a valid name is a fixed point of its converter; under
    UPPER_SNAKE_CASE a valid name is a fixed point exactly when it has no
    upper-case letter after its first character, since the converter puts
    an underscore before every upper-case letter. *)
Theorem valid_name_conversion (c : CaseType) (n : string) :
  caseValidators c n = true ->
  match c with
  | UPPER_SNAKE_CASE => caseConverters c n = n <-> noUpper (rest n) = true
  | _ => caseConverters c n = n
  end.
Proof.
  destruct c; simpl; intros Hvalid.
  - destruct (valid_lower_start _ _ Hvalid) as (c & r & -> & Hc & Hr).
    apply camel_shaped_fixed; auto using isLower_isDot.
    + apply toLowerCaseChar_fixed, isLower_not_upper, Hc.
    + apply isAlnum_not_separator. unfold isAlnum. rewrite Hc. reflexivity.
  - destruct (valid_upper_start _ _ Hvalid) as (c & r & -> & Hc & Hr).
    apply camel_shaped_fixed; auto using isUpper_isDot.
    + apply toUpperCaseChar_fixed, isUpper_not_lower, Hc.
    + apply isAlnum_not_separator. unfold isAlnum. rewrite Hc.
      destruct (isLower c); reflexivity.
  - destruct (valid_lower_start _ _ Hvalid) as (c & r & -> & Hc & Hr).
    apply (lower_separated_fixed "_"%char isUnderscore); auto.
    + intros d Hd. exact (proj1 (isUnderscore_caseless d Hd)).
    + destruct (Ascii.eqb c "_"%char) eqn:He; [|reflexivity].
      apply Ascii.eqb_eq in He. subst c. discriminate.
  - destruct (valid_upper_start _ _ Hvalid) as (c & r & -> & Hc & Hr).
    fold (caseConverters UPPER_SNAKE_CASE (String c r)).
    rewrite (upper_snake_shaped c r Hc Hr). simpl rest.
    rewrite <- (insertBeforeUpper_fixed_iff "_"%char r).
    split; [intros H; injection H; auto | intros ->; reflexivity].
  - destruct (valid_lower_start _ _ Hvalid) as (c & r & -> & Hc & Hr).
    apply (lower_separated_fixed "-"%char isHyphen); auto.
    + intros d Hd. exact (proj1 (isHyphen_caseless d Hd)).
    + destruct (Ascii.eqb c "-"%char) eqn:He; [|reflexivity].
      apply Ascii.eqb_eq in He. subst c. discriminate.
Qed.

(** C2, as stated, fails: [MY_VARIABLE] is valid UPPER_SNAKE_CASE and its
    converter turns it into [M_Y__V_A_R_I_A_B_L_E]. *)
Lemma valid_name_conversion_counterexample :
  caseValidators UPPER_SNAKE_CASE "MY_VARIABLE" = true
  /\ caseConverters UPPER_SNAKE_CASE "MY_VARIABLE" = "M_Y__V_A_R_I_A_B_L_E"
  /\ caseConverters UPPER_SNAKE_CASE "MY_VARIABLE" <> "MY_VARIABLE".
Proof.
  split; [reflexivity|]. split; [reflexivity|]. vm_compute. discriminate.
Qed.

Lemma converted_no_lower (n : string) :
  noLower (caseConverters UPPER_SNAKE_CASE n) = true.
Proof. apply all_dropLeading, noLower_toUpperCase. Qed.

Lemma converted_no_upper (sep : ascii) (n : string) :
  noUpper (dropLeading sep (toLowerCase (insertBeforeUpper sep n))) = true.
Proof. apply all_dropLeading, noUpper_toLowerCase. Qed.

Lemma reconvert_lower_separated (sep : ascii) (r : string) :
  noUpper r = true ->
  dropLeading sep (toLowerCase (insertBeforeUpper sep r)) = dropLeading sep r.
Proof.
  intros Hno.
  rewrite (noUpper_insertBeforeUpper sep r Hno), (toLowerCase_fixed r Hno).
  reflexivity.
Qed.

Lemma reconvert_first_replaced (f : ascii -> ascii) (n : string) :
  (forall c, f (f c) = f c) -> (forall c, isDot (f c) = isDot c) ->
  let r := replaceFirst f (replaceSeparators n) in
  replaceFirst f (replaceSeparators r) = r <-> matchesSeparatorPair r = false.
Proof.
  intros Hf Hdot r. split.
  - intros H. destruct (matchesSeparatorPair r) eqn:Hm; [|reflexivity].
    apply (proj1 (replaceSeparators_shrinks r)) in Hm.
    apply (f_equal String.length) in H. rewrite replaceFirst_length in H. lia.
  - intros Hm. apply replaceSeparators_fixed_iff in Hm. rewrite Hm.
    apply replaceFirst_idem; assumption.
Qed.

Lemma reconvert_upper_snake (r : string) :
  noLower r = true ->
  caseConverters UPPER_SNAKE_CASE r = r <-> settled UPPER_SNAKE_CASE r = true.
Proof.
  intros Hlow. unfold caseConverters.
  rewrite toUpperCase_fixed by (apply noLower_insertBeforeUpper; [reflexivity|exact Hlow]).
  destruct r as [|c t]; simpl; [tauto|].
  destruct (isUpper c) eqn:Hc.
  - simpl. rewrite (isUpper_not_underscore c Hc).
    rewrite <- (insertBeforeUpper_fixed_iff "_"%char t).
    split; [intros H; injection H; auto | intros ->; reflexivity].
  - simpl. unfold isUnderscore. destruct (Ascii.eqb c "_"%char) eqn:Hu.
    + apply Ascii.eqb_eq in Hu. subst c. apply insertBeforeUpper_shifts_iff.
    + rewrite <- (insertBeforeUpper_fixed_iff "_"%char t).
      split; [intros H; injection H; auto | intros ->; reflexivity].
Qed.

Lemma isAscii_toUpperCaseChar (c : ascii) :
  (code c <? 128) = true -> (code (toUpperCaseChar c) <? 128) = true.
Proof. each_char c. Qed.

Lemma isAscii_toLowerCaseChar (c : ascii) :
  (code c <? 128) = true -> (code (toLowerCaseChar c) <? 128) = true.
Proof. each_char c. Qed.

Lemma isAsciiName_replaceSeparators (s : string) :
  (isAsciiName s = true -> isAsciiName (replaceSeparators s) = true)
  /\ (forall c, isAsciiName (String c s) = true ->
                isAsciiName (replaceSeparators (String c s)) = true).
Proof.
  unfold isAsciiName. induction s as [|a r [IH IHc]].
  - split; [reflexivity|]. intros c Hc. simpl in *.
    destruct (isSeparator c); exact Hc.
  - split; [apply IHc|].
    intros c Hall. rewrite replaceSeparators_step.
    change (all (fun c => code c <? 128) (String c (String a r)))
      with ((code c <? 128) && all (fun c => code c <? 128) (String a r)) in Hall.
    apply andb_prop in Hall. destruct Hall as [Hc Har].
    assert (Hkeep : all (fun c => code c <? 128)
                      (String c (replaceSeparators (String a r))) = true).
    { change (all (fun c => code c <? 128)
                (String c (replaceSeparators (String a r))))
        with ((code c <? 128)
              && all (fun c => code c <? 128) (replaceSeparators (String a r))).
      rewrite Hc, (IHc a Har). reflexivity. }
    destruct (isSeparator c); [|exact Hkeep].
    destruct (isDot a); [|exact Hkeep].
    simpl in Har. apply andb_prop in Har. destruct Har as [Ha Hr].
    simpl. rewrite (isAscii_toUpperCaseChar a Ha), (IH Hr). reflexivity.
Qed.

Lemma isAsciiName_replaceFirst (f : ascii -> ascii) (s : string) :
  (forall c, (code c <? 128) = true -> (code (f c) <? 128) = true) ->
  isAsciiName s = true -> isAsciiName (replaceFirst f s) = true.
Proof.
  unfold isAsciiName. intros Hf. destruct s as [|c r]; simpl; [reflexivity|].
  intros H. destruct (isDot c); [|exact H].
  apply andb_prop in H. destruct H as [Hc Hr].
  simpl. rewrite (Hf c Hc), Hr. reflexivity.
Qed.

Lemma isAsciiName_insertBeforeUpper (sep : ascii) (s : string) :
  (code sep <? 128) = true ->
  isAsciiName s = true -> isAsciiName (insertBeforeUpper sep s) = true.
Proof.
  unfold isAsciiName. intros Hsep. induction s as [|c r IH]; simpl; [reflexivity|].
  intros H. apply andb_prop in H. destruct H as [Hc Hr].
  destruct (isUpper c); simpl; rewrite ?Hsep, Hc, (IH Hr); reflexivity.
Qed.

Lemma isAsciiName_toLowerCase (s : string) :
  isAsciiName s = true -> isAsciiName (toLowerCase s) = true.
Proof.
  unfold isAsciiName. induction s as [|c r IH]; simpl; [reflexivity|].
  intros H. apply andb_prop in H. destruct H as [Hc Hr].
  rewrite (isAscii_toLowerCaseChar c Hc), (IH Hr). reflexivity.
Qed.

Lemma isAsciiName_toUpperCase (s : string) :
  isAsciiName s = true -> isAsciiName (toUpperCase s) = true.
Proof.
  unfold isAsciiName. induction s as [|c r IH]; simpl; [reflexivity|].
  intros H. apply andb_prop in H. destruct H as [Hc Hr].
  rewrite (isAscii_toUpperCaseChar c Hc), (IH Hr). reflexivity.
Qed.

(** The converters keep a name of ASCII characters in ASCII. *)
Lemma isAsciiName_converted (c : CaseType) (n : string) :
  isAsciiName n = true -> isAsciiName (caseConverters c n) = true.
Proof.
  intros Hn. destruct c; unfold caseConverters.
  - apply isAsciiName_replaceFirst; [apply isAscii_toLowerCaseChar|].
    apply (proj1 (isAsciiName_replaceSeparators n)), Hn.
  - apply isAsciiName_replaceFirst; [apply isAscii_toUpperCaseChar|].
    apply (proj1 (isAsciiName_replaceSeparators n)), Hn.
  - apply all_dropLeading, isAsciiName_toLowerCase,
      isAsciiName_insertBeforeUpper; [reflexivity | exact Hn].
  - apply all_dropLeading, isAsciiName_toUpperCase,
      isAsciiName_insertBeforeUpper; [reflexivity | exact Hn].
  - apply all_dropLeading, isAsciiName_toLowerCase,
      isAsciiName_insertBeforeUpper; [reflexivity | exact Hn].
Qed.

Lemma reconversion_settled (c : CaseType) (n : string) :
  caseConverters c (caseConverters c n) = caseConverters c n
  <-> settled c (caseConverters c n) = true.
Proof.
  destruct c.
  - simpl. rewrite negb_true_iff.
    apply reconvert_first_replaced;
      [apply toLowerCaseChar_idem | apply isDot_toLowerCaseChar].
  - simpl. rewrite negb_true_iff.
    apply reconvert_first_replaced;
      [apply toUpperCaseChar_idem | apply isDot_toUpperCaseChar].
  - simpl. rewrite negb_true_iff.
    rewrite reconvert_lower_separated by apply converted_no_upper.
    apply dropLeading_fixed_iff.
  - apply reconvert_upper_snake, converted_no_lower.
  - simpl. rewrite negb_true_iff.
    rewrite reconvert_lower_separated by apply converted_no_upper.
    apply dropLeading_fixed_iff.
Qed.

(** C4, as the code has it: for a name of ASCII characters the converted
    name is again of ASCII characters, and converting it again changes
    nothing exactly when the converted name is settled: for camelCase and
    PascalCase it holds no separator followed by a character, for
    snake_case (kebab-case) it does not begin with an underscore (a
    hyphen), and for UPPER_SNAKE_CASE it is empty, or begins with
    something other than an underscore and has no upper-case letter after
    its first character, or is an underscore run followed by its only
    upper-case letter. *)
Theorem reconversion_fixed_iff_settled (c : CaseType) (n : string) :
  isAsciiName n = true ->
  isAsciiName (caseConverters c n) = true
  /\ (caseConverters c (caseConverters c n) = caseConverters c n
      <-> settled c (caseConverters c n) = true).
Proof.
  intros Hn. split; [apply isAsciiName_converted, Hn | apply reconversion_settled].
Qed.

(** C4, as stated, fails: under camelCase [a__b] converts to [a_b], which
    converts to [aB]. *)
Lemma reconversion_counterexample :
  caseConverters camelCase "a__b" = "a_b"
  /\ caseConverters camelCase (caseConverters camelCase "a__b") = "aB"
  /\ caseConverters camelCase (caseConverters camelCase "a__b")
     <> caseConverters camelCase "a__b".
Proof.
  split; [reflexivity|]. split; [reflexivity|]. vm_compute. discriminate.
Qed.

(** None of the five converters is idempotent on all names. *)
Example reconversion_changes_under_each_convention :
  map (fun '(c, n) => (caseConverters c n, caseConverters c (caseConverters c n)))
    [(camelCase, "a__b"); (PascalCase, "a__b"); (snake_case, "_A");
     (UPPER_SNAKE_CASE, "aB"); (kebab_case, "-A")]
  = [("a_b", "aB"); ("A_b", "AB"); ("_a", "a"); ("A_B", "A__B"); ("-a", "a")].
Proof. reflexivity. Qed.

(** C8, as the code has it: under every convention the empty string does
    not validate, since each shape asks for a first character, and it
    converts to itself; both functions are total. *)
Theorem empty_name (c : CaseType) :
  caseValidators c "" = false /\ caseConverters c "" = "".
Proof. destruct c; split; reflexivity. Qed.

(** C8, as stated, fails: the empty string does not validate as camelCase. *)
Lemma empty_name_counterexample :
  caseValidators camelCase "" <> true.
Proof. vm_compute. discriminate. Qed.

End CaseTable.

Lemma valid_name_conversion_witness :
  caseConverters snake_case "my_variable_2" = "my_variable_2".
Proof.
  apply (valid_name_conversion snake_case "my_variable_2"). reflexivity.
Defined.

(* ------------------------------------------------------------------ *)
(** ** The allowlist, the type classifier and the factory heuristic *)

Section Heuristics.

Variable host : Host.
Variable options : Options.

Lemma some_test_run (name : string) (patterns : list string) :
  some (fun pattern => test host pattern name) patterns
  = (map (fun pattern => RegExpTest pattern name)
       (upToFirst (fun pattern => regExp_test host pattern name) patterns),
     Returned (existsb (fun pattern => regExp_test host pattern name) patterns)).
Proof.
  induction patterns as [|p r IH]; [reflexivity|].
  cbn [some]. rewrite IH. unfold test, call. simpl.
  destruct (regExp_test host p name); reflexivity.
Qed.

(** X1: [isAllowedByPattern] returns whether some allowed pattern matches
    the name; it tests the patterns in order and stops at the first that
    matches, so with no pattern it answers false without a test. *)
Theorem isAllowedByPattern_run (name : string) :
  isAllowedByPattern host options name
  = (map (fun pattern => RegExpTest pattern name)
       (upToFirst (fun pattern => regExp_test host pattern name)
          (allowedPatterns options)),
     Returned (existsb (fun pattern => regExp_test host pattern name)
                 (allowedPatterns options))).
Proof. apply some_test_run. Qed.

Lemma toInt32_low_bit (f : Z) :
  negb (Z.eqb (Z.land (toInt32 f) (Z.shiftl 1 0)) 0) = Z.odd f.
Proof.
  change (Z.shiftl 1 0) with (Z.ones 1).
  rewrite Z.land_ones by lia. change (2 ^ 1)%Z with 2%Z.
  rewrite Zmod_odd.
  assert (Hodd : Z.odd (toInt32 f) = Z.odd f).
  { unfold toInt32.
    rewrite Z.mod_eq by lia.
    replace (f + 2 ^ 31 - 2 ^ 32 * ((f + 2 ^ 31) / 2 ^ 32) - 2 ^ 31)%Z
      with (f + 2 * (- (2 ^ 31 * ((f + 2 ^ 31) / 2 ^ 32))))%Z by lia.
    apply Z.odd_add_mul_2. }
  rewrite Hodd. destruct (Z.odd f); reflexivity.
Qed.

(** X2: the test [type.flags & (1 << 0)] reads the parity of the flags,
    also for flags outside the 32-bit range. *)
Theorem any_flag_is_parity (f : Z) :
  negb (Z.eqb (Z.land (toInt32 f) (Z.shiftl 1 0)) 0) = Z.odd f.
Proof. apply toInt32_low_bit. Qed.

(** X3: when the identifier is not annotated [any] and the three
    type-checker calls return, [hasAnyType] makes exactly these calls and
    answers false for a type whose printed name is excluded, and otherwise
    true exactly for a type with the [Any] flag or printed as [any]. *)
Theorem hasAnyType_resolved
    (node : VariableDeclarator) (tsNode : option TsNode) (type : TsType)
    (typeString : string) :
  (forall name, id node <> BindingIdentifier name (Some TSAnyKeyword)) ->
  esTreeNodeToTSNodeMap_get host (id node) = Returned tsNode ->
  checker_getTypeAtLocation host tsNode = Returned type ->
  checker_typeToString host type = Returned typeString ->
  hasAnyType host options node
  = ([NodeMapGet; GetTypeAtLocation; TypeToString],
     Returned (negb (includes (excludeTypes options) typeString)
               && (Z.odd (flags type) || String.eqb typeString "any"))).
Proof.
  intros Hann Hget Htype Hstr.
  assert (Hbody : resolvedTypeIsAny host options node
                  = ([NodeMapGet; GetTypeAtLocation; TypeToString],
                     Returned (negb (includes (excludeTypes options) typeString)
                               && (Z.odd (flags type) || String.eqb typeString "any")))).
  { unfold resolvedTypeIsAny, nodeMapGet, getTypeAtLocation, typeToString, call.
    rewrite Hget. simpl. rewrite Htype. simpl. rewrite Hstr. simpl.
    rewrite toInt32_low_bit.
    destruct (includes (excludeTypes options) typeString); reflexivity. }
  unfold hasAnyType. rewrite Hbody.
  destruct (id node) as [name [[]|]| |]; try reflexivity.
  exfalso. exact (Hann name eq_refl).
Qed.

Lemma includes_In (l : list string) (x : string) :
  includes l x = true <-> In x l.
Proof.
  unfold includes. rewrite existsb_exists. split.
  - intros (y & Hy & Heq). apply String.eqb_eq in Heq. subst y. exact Hy.
  - intros Hx. exists x. split; [exact Hx | apply String.eqb_refl].
Qed.

Lemma isComponentCreatorNode_enabled (n : Node) :
  isComponentCreatorNode options n = true ->
  (List.length (componentCreators options) =? 0)
  && (List.length (styledLibraries options) =? 0) = false.
Proof.
  destruct ((List.length (componentCreators options) =? 0)
            && (List.length (styledLibraries options) =? 0)) eqn:Hoff;
    [|reflexivity].
  destruct n; simpl; rewrite Hoff; discriminate.
Qed.

Lemma In_enabled (name : string) :
  In name (componentCreators options) \/ In name (styledLibraries options) ->
  (List.length (componentCreators options) =? 0)
  && (List.length (styledLibraries options) =? 0) = false.
Proof.
  intros [H|H].
  - destruct (componentCreators options); [contradiction|reflexivity].
  - destruct (styledLibraries options); [contradiction|].
    simpl. apply andb_false_r.
Qed.

Lemma FactoryShape_enabled (n : Node) :
  FactoryShape options n ->
  (List.length (componentCreators options) =? 0)
  && (List.length (styledLibraries options) =? 0) = false.
Proof.
  induction 1; eauto using In_enabled.
Qed.

(** X4: [isComponentCreator] flags exactly the factory shapes: templates
    tagged by a styled-library name or a member of one, calls of a
    component creator or of a member of a styled library, and calls of
    such calls to any depth. *)
Theorem isComponentCreator_iff_factory_shape (n : Node) :
  isComponentCreator options (Some n) = true <-> FactoryShape options n.
Proof.
  simpl. split.
  - induction n; intros H; pose proof (isComponentCreatorNode_enabled _ H) as Hon;
      simpl in H; rewrite Hon in H; try discriminate.
    + destruct n; try discriminate.
      * apply factory_call_identifier, includes_In, H.
      * destruct n; try discriminate.
        apply factory_call_member, includes_In, H.
      * apply factory_call_call, IHn, H.
    + destruct n; try discriminate.
      * apply factory_tag_identifier, includes_In, H.
      * destruct n; try discriminate.
        apply factory_tag_member, includes_In, H.
  - induction 1 as [name H|name H|name H|name H|callee H IH].
    + simpl. rewrite (In_enabled name (or_intror H)). apply includes_In, H.
    + simpl. rewrite (In_enabled name (or_intror H)). apply includes_In, H.
    + simpl. rewrite (In_enabled name (or_introl H)). apply includes_In, H.
    + simpl. rewrite (In_enabled name (or_intror H)). apply includes_In, H.
    + change (isComponentCreatorNode options (CallExpression (CallExpression callee)))
        with (if (List.length (componentCreators options) =? 0)
                 && (List.length (styledLibraries options) =? 0)
              then false
              else isComponentCreatorNode options (CallExpression callee)).
      rewrite (FactoryShape_enabled _ H). exact IH.
Qed.

(** X5: the depth of currying does not matter: a call of a call of ... of
    [callee(...)] is flagged exactly when [callee(...)] is, while a
    template tagged by a call is never flagged. *)
Theorem isComponentCreator_curried (depth : nat) (callee : Node) :
  isComponentCreator options
    (Some (Nat.iter depth CallExpression (CallExpression callee)))
  = isComponentCreator options (Some (CallExpression callee))
  /\ isComponentCreator options
       (Some (TaggedTemplateExpression (CallExpression callee))) = false.
Proof.
  split.
  - induction depth as [|k IH]; [reflexivity|].
    rewrite <- IH. simpl.
    destruct (Nat.iter k CallExpression (CallExpression callee)) eqn:Hk;
      try (destruct k; discriminate).
    simpl. destruct ((List.length (componentCreators options) =? 0)
                     && (List.length (styledLibraries options) =? 0)); reflexivity.
  - simpl. destruct ((List.length (componentCreators options) =? 0)
                     && (List.length (styledLibraries options) =? 0)); reflexivity.
Qed.

End Heuristics.

Lemma hasAnyType_resolved_witness :
  hasAnyType (Samples.typedHost (mkTsType 1) "Promise")
    (mkOptions None None (Some ["Promise"]) None None None None None None)
    Samples.API_result
  = ([NodeMapGet; GetTypeAtLocation; TypeToString], Returned false).
Proof.
  apply (hasAnyType_resolved (Samples.typedHost (mkTsType 1) "Promise")
           (mkOptions None None (Some ["Promise"]) None None None None None None)
           Samples.API_result (Some 0) (mkTsType 1) "Promise").
  - intros name. discriminate.
  - reflexivity.
  - reflexivity.
  - reflexivity.
Defined.

(* ------------------------------------------------------------------ *)
(** ** The shape classifier, kind by kind *)

Section ShapeKinds.

Variable host : Host.
Variable options : Options.

(** X6: an initializer that is an identifier, a literal, a template, an
    array or object literal, or a unary, binary, logical or conditional
    expression is a simple value under every configuration, and the host
    is not consulted to decide it. *)
Theorem plain_kinds_always_simple (node : VariableDeclarator) (n : Node) :
  init node = Some n ->
  isPlainKind n = true ->
  isSimpleValue host options node = ([], Returned true).
Proof.
  intros Hinit Hkind. unfold isSimpleValue. rewrite Hinit.
  destruct n; try discriminate; simpl;
    destruct ((List.length (componentCreators options) =? 0)
              && (List.length (styledLibraries options) =? 0)); reflexivity.
Qed.

(** X7: a member-access initializer is a simple value exactly when its
    source text does not start with an upper-case identifier followed by
    [[]; the text is read once and nothing else is asked. *)
Theorem member_expression_simple (node : VariableDeclarator) (object : Node) :
  init node = Some (MemberExpression object) ->
  isSimpleValue host options node
  = ([GetText],
     Returned (negb (testUpperIdentifierBracket
                       (sourceCode_getText host (MemberExpression object))))).
Proof.
  intros Hinit. unfold isSimpleValue. rewrite Hinit. simpl.
  destruct ((List.length (componentCreators options) =? 0)
            && (List.length (styledLibraries options) =? 0));
    simpl;
    destruct (testUpperIdentifierBracket
                (sourceCode_getText host (MemberExpression object)));
    reflexivity.
Qed.

(** X8: a call of a bare identifier is a simple value exactly when the
    identifier is no component creator and the hook pattern is set and
    matches it; for a component creator the hook pattern is not tested. *)
Theorem identifier_call_simple (node : VariableDeclarator) (name : string) :
  init node = Some (CallExpression (Identifier name)) ->
  isSimpleValue host options node
  = if includes (componentCreators options) name then ([], Returned false)
    else match hookPattern options with
         | Some p => ([RegExpTest p name], Returned (regExp_test host p name))
         | None => ([], Returned false)
         end.
Proof.
  intros Hinit. unfold isSimpleValue. rewrite Hinit. simpl.
  destruct (componentCreators options) as [|creator creators] eqn:Hc; simpl.
  - destruct (List.length (styledLibraries options) =? 0); simpl;
      unfold hookPatternTest; destruct (hookPattern options); reflexivity.
  - destruct (String.eqb name creator || includes creators name);
      simpl; [reflexivity|].
    unfold hookPatternTest. destruct (hookPattern options); reflexivity.
Qed.

Lemma isSimpleValue_opaque (node : VariableDeclarator) :
  isOpaqueKind (init node) = true ->
  isSimpleValue host options node = ([], Returned false).
Proof.
  unfold isSimpleValue. destruct (init node) as [n|]; [|reflexivity].
  destruct n; try discriminate; intros _; simpl;
    destruct ((List.length (componentCreators options) =? 0)
              && (List.length (styledLibraries options) =? 0)); simpl;
    try reflexivity; destruct kind; reflexivity.
Qed.

(** X9: a declarator without initializer, with a function initializer or
    with an initializer of a kind the rule never names is not a simple
    value; it is reported only when [hasAnyType] returns true, and a
    function only when [checkFunctions] is set as well. *)
Theorem opaque_kinds_need_any_type (node : VariableDeclarator) :
  isOpaqueKind (init node) = true ->
  isSimpleValue host options node = ([], Returned false)
  /\ (forall d : ReportDescriptor,
        In (Report d) (events (VariableDeclarator_visit host options node)) ->
        value (hasAnyType host options node) = Returned true
        /\ (isFunction node = true -> checkFunctions options = true)).
Proof.
  intros Hkind. pose proof (isSimpleValue_opaque node Hkind) as Hsimple.
  split; [exact Hsimple|].
  intros d Hd. apply reports_In in Hd. rewrite visit_reports in Hd.
  destruct (id node) as [name ann| |] eqn:Hid; try contradiction.
  destruct (inScope host options node) eqn:Hscope; [|contradiction].
  unfold inScope, passesIdentityGuards in Hscope. rewrite Hid, Hsimple in Hscope.
  destruct (silent_hasAnyType host options node) as (l & b & E & _).
  rewrite E in *. unfold returnsTrue, value in Hscope. simpl in Hscope.
  rewrite orb_false_r in Hscope.
  apply andb_prop in Hscope. destruct Hscope as [Hguards Hany].
  split; [simpl; congruence|].
  intros Hfun. rewrite Hfun in Hguards.
  destruct (checkFunctions options); [reflexivity|].
  simpl in Hguards. rewrite !andb_false_r in Hguards. discriminate.
Qed.

End ShapeKinds.

Lemma plain_kinds_always_simple_witness :
  isSimpleValue Samples.plainHost Samples.snakeOptions Samples.my_variable
  = ([], Returned true).
Proof.
  apply (plain_kinds_always_simple Samples.plainHost Samples.snakeOptions
           Samples.my_variable Literal); reflexivity.
Defined.

Lemma member_expression_simple_witness :
  isSimpleValue memberLookupHost Samples.defaultOptions Close_icon
  = ([GetText], Returned false).
Proof.
  apply (member_expression_simple memberLookupHost Samples.defaultOptions
           Close_icon (Identifier "Icons")).
  reflexivity.
Defined.

Lemma identifier_call_simple_witness :
  isSimpleValue Samples.plainHost Samples.defaultOptions Samples.useCustomState
  = ([RegExpTest "^use[A-Z]" "useState"], Returned true).
Proof.
  apply (identifier_call_simple Samples.plainHost Samples.defaultOptions
           Samples.useCustomState "useState").
  reflexivity.
Defined.

Lemma opaque_kinds_need_any_type_witness :
  isSimpleValue Samples.plainHost
    (mkOptions None None None None None None (Some true) None None) handle_click
  = ([], Returned false).
Proof.
  apply (opaque_kinds_need_any_type Samples.plainHost
           (mkOptions None None None None None None (Some true) None None)
           handle_click).
  reflexivity.
Defined.

(* ------------------------------------------------------------------ *)
(** ** What a visit asks of the host *)

Section Traces.

Variable host : Host.
Variable options : Options.

(** The events of a visit of a plain identifier, guard by guard. *)
Lemma visit_events (node : VariableDeclarator) (name : string)
    (ann : option TypeNode) :
  id node = BindingIdentifier name ann ->
  events (VariableDeclarator_visit host options node)
  = (if ignoreImports options then events (isImportedVariable host node) else [])
    ++ (if ignoreImports options && returnsTrue (isImportedVariable host node)
        then []
        else
          events (isAllowedByPattern host options name)
          ++ (if returnsTrue (isAllowedByPattern host options name)
                 || (isFunction node && negb (checkFunctions options))
              then []
              else
                events (hasAnyType host options node)
                ++ events (isSimpleValue host options node)
                ++ (if (returnsTrue (hasAnyType host options node)
                        || returnsTrue (isSimpleValue host options node))
                       && negb (isValidCase options name)
                       && negb (String.eqb (convertToCase options name) name)
                    then [Report (finding options name)]
                    else []))).
Proof.
  intros Hid. unfold VariableDeclarator_visit. rewrite Hid.
  destruct (silent_isImportedVariable host node) as (l1 & b1 & E1 & _).
  destruct (silent_isAllowedByPattern host options name) as (l2 & b2 & E2 & _).
  destruct (silent_hasAnyType host options node) as (l3 & b3 & E3 & _).
  destruct (silent_isSimpleValue host options node) as (l4 & b4 & E4 & _).
  rewrite E1, E2, E3, E4, reportNamingIssue_run.
  unfold returnsTrue, value, events. simpl.
  destruct (ignoreImports options), b1, b2,
    (isFunction node), (checkFunctions options), b3, b4,
    (isValidCase options name),
    (String.eqb (convertToCase options name) name);
    simpl; rewrite ?app_nil_r; reflexivity.
Qed.

Lemma isImportedVariable_events (node : VariableDeclarator) (name : string)
    (ann : option TypeNode) :
  id node = BindingIdentifier name ann ->
  events (isImportedVariable host node) = [GetScope].
Proof. intros Hid. unfold isImportedVariable. rewrite Hid. reflexivity. Qed.

Lemma isAllowedByPattern_calls (name : string) :
  filter notRegExpTest (events (isAllowedByPattern host options name)) = [].
Proof.
  unfold isAllowedByPattern. rewrite some_test_run. unfold events. simpl.
  induction (upToFirst (fun pattern => regExp_test host pattern name)
               (allowedPatterns options)) as [|p r IH]; [reflexivity|exact IH].
Qed.

Lemma hasAnyType_events (node : VariableDeclarator) :
  ((exists name, id node = BindingIdentifier name (Some TSAnyKeyword))
   /\ events (hasAnyType host options node) = [])
  \/ ((forall name, id node <> BindingIdentifier name (Some TSAnyKeyword))
      /\ (events (hasAnyType host options node) = [NodeMapGet]
          \/ events (hasAnyType host options node) = [NodeMapGet; GetTypeAtLocation]
          \/ events (hasAnyType host options node)
             = [NodeMapGet; GetTypeAtLocation; TypeToString])).
Proof.
  assert (Hbody : events (tryCatch (resolvedTypeIsAny host options node)
                            (fun _ => ret false)) = [NodeMapGet]
                  \/ events (tryCatch (resolvedTypeIsAny host options node)
                               (fun _ => ret false))
                     = [NodeMapGet; GetTypeAtLocation]
                  \/ events (tryCatch (resolvedTypeIsAny host options node)
                               (fun _ => ret false))
                     = [NodeMapGet; GetTypeAtLocation; TypeToString]).
  { unfold resolvedTypeIsAny, nodeMapGet, getTypeAtLocation, typeToString, call.
    destruct (esTreeNodeToTSNodeMap_get host (id node)) as [tsNode|e];
      [|left; reflexivity].
    simpl. destruct (checker_getTypeAtLocation host tsNode) as [ty|e];
      [|right; left; reflexivity].
    simpl. destruct (checker_typeToString host ty) as [str|e];
      [|right; right; reflexivity].
    simpl. destruct (includes (excludeTypes options) str);
      right; right; reflexivity. }
  unfold hasAnyType. destruct (id node) as [name [[]|]| |];
    try (right; split; [intros n; discriminate | exact Hbody]).
  left. split; [exists name; reflexivity | reflexivity].
Qed.

Lemma hasAnyType_calls (node : VariableDeclarator) :
  filter notRegExpTest (events (hasAnyType host options node))
  = events (hasAnyType host options node).
Proof.
  destruct (hasAnyType_events node) as [[_ H]|[_ [H|[H|H]]]];
    rewrite H; reflexivity.
Qed.

Lemma isSimpleValue_calls (node : VariableDeclarator) :
  filter notRegExpTest (events (isSimpleValue host options node)) = []
  \/ filter notRegExpTest (events (isSimpleValue host options node)) = [GetText].
Proof.
  unfold isSimpleValue. destruct (init node) as [n|]; [|left; reflexivity].
  destruct (isComponentCreator options (Some n)); [left; reflexivity|].
  destruct n; simpl; try (left; reflexivity).
  - destruct (testUpperIdentifierBracket _); right; reflexivity.
  - destruct n; simpl; try (left; reflexivity).
    unfold hookPatternTest. destruct (hookPattern options); left; reflexivity.
  - destruct kind; left; reflexivity.
Qed.

(** The calls of a visit that are no regular-expression test. *)
Lemma visit_calls (node : VariableDeclarator) :
  filter notRegExpTest (events (VariableDeclarator_visit host options node))
  = (if isIdentifier (id node) && ignoreImports options then [GetScope] else [])
    ++ (if passesIdentityGuards host options node
        then
          events (hasAnyType host options node)
          ++ filter notRegExpTest (events (isSimpleValue host options node))
          ++ map Report (reports (events (VariableDeclarator_visit host options node)))
        else []).
Proof.
  destruct (id node) as [name ann| |] eqn:Hid.
  - rewrite visit_reports, (visit_events node name ann Hid), Hid,
      (isImportedVariable_events _ _ _ Hid).
    unfold inScope, passesIdentityGuards. rewrite Hid.
    pose proof (isAllowedByPattern_calls name) as Ha.
    pose proof (hasAnyType_calls node) as Hh.
    remember (events (isAllowedByPattern host options name)) as la.
    remember (events (hasAnyType host options node)) as lh.
    remember (events (isSimpleValue host options node)) as ls.
    destruct (ignoreImports options),
      (returnsTrue (isImportedVariable host node)),
      (returnsTrue (isAllowedByPattern host options name)),
      (isFunction node), (checkFunctions options),
      (returnsTrue (hasAnyType host options node)),
      (returnsTrue (isSimpleValue host options node)),
      (isValidCase options name),
      (String.eqb (convertToCase options name) name);
      cbn [isIdentifier negb andb orb app];
      repeat (progress (rewrite ?filter_app, ?Ha, ?Hh;
                        cbn [app filter notRegExpTest map]));
      rewrite ?app_nil_r; reflexivity.
  - unfold VariableDeclarator_visit, passesIdentityGuards. rewrite Hid. simpl.
    destruct (ignoreDestructuring options); reflexivity.
  - unfold VariableDeclarator_visit, passesIdentityGuards. rewrite Hid. simpl.
    destruct (ignoreDestructuring options); reflexivity.
Qed.

(** X10: a declarator that one of the guards 1 to 5 excludes is not
    classified: the type checker is not asked, no source text is read and
    nothing is reported; apart from the pattern tests of the allowlist the
    only call is the scope lookup, made when imports are ignored. *)
Theorem excluded_before_classification (node : VariableDeclarator) :
  passesIdentityGuards host options node = false ->
  filter notRegExpTest (events (VariableDeclarator_visit host options node))
  = if isIdentifier (id node) && ignoreImports options then [GetScope] else [].
Proof.
  intros Hguards. rewrite visit_calls, Hguards. apply app_nil_r.
Qed.

(** X11: in one visit the scope lookup, each of the three type-checker
    calls, the reading of the source text and the report each happen at
    most once. *)
Theorem visit_calls_at_most_once (node : VariableDeclarator) :
  NoDup (filter notRegExpTest (events (VariableDeclarator_visit host options node))).
Proof.
  rewrite visit_calls, visit_reports.
  destruct (hasAnyType_events node) as [[_ Hh]|[_ [Hh|[Hh|Hh]]]];
    destruct (isSimpleValue_calls node) as [Hs|Hs];
    rewrite Hh, Hs;
    destruct (isIdentifier (id node) && ignoreImports options),
      (passesIdentityGuards host options node);
    destruct (id node) as [name ann| |];
    try destruct (inScope host options node && negb (isValidCase options name)
                  && negb (String.eqb (convertToCase options name) name));
    cbn [app map];
    repeat (constructor; [simpl; intuition discriminate|]);
    constructor.
Qed.

Lemma In_visit_calls (node : VariableDeclarator) (ev : Event) :
  notRegExpTest ev = true ->
  In ev (events (VariableDeclarator_visit host options node))
  <-> In ev (filter notRegExpTest
               (events (VariableDeclarator_visit host options node))).
Proof. intros Hev. rewrite filter_In. tauto. Qed.

Lemma scope_consulted_iff (node : VariableDeclarator) :
  In GetScope (events (VariableDeclarator_visit host options node))
  <-> isIdentifier (id node) && ignoreImports options = true.
Proof.
  rewrite (In_visit_calls node GetScope eq_refl), visit_calls, visit_reports.
  destruct (hasAnyType_events node) as [[_ Hh]|[_ [Hh|[Hh|Hh]]]];
    destruct (isSimpleValue_calls node) as [Hs|Hs];
    rewrite Hh, Hs;
    destruct (isIdentifier (id node) && ignoreImports options),
      (passesIdentityGuards host options node);
    destruct (id node) as [name ann| |];
    try destruct (inScope host options node && negb (isValidCase options name)
                  && negb (String.eqb (convertToCase options name) name));
    cbn [app map In];
    (split;
     [ intros H; try reflexivity;
       repeat (destruct H as [H|H]; try discriminate); try contradiction
     | intros H; try discriminate; auto ]).
Qed.

(** The calls of the type classifier, from what the host answers. *)
Lemma hasAnyType_trace (node : VariableDeclarator) :
  events (hasAnyType host options node)
  = if annotatedAny (id node) then []
    else
      match esTreeNodeToTSNodeMap_get host (id node) with
      | Thrown _ => [NodeMapGet]
      | Returned tsNode =>
          match checker_getTypeAtLocation host tsNode with
          | Thrown _ => [NodeMapGet; GetTypeAtLocation]
          | Returned _ => [NodeMapGet; GetTypeAtLocation; TypeToString]
          end
      end.
Proof.
  assert (Hbody : events (tryCatch (resolvedTypeIsAny host options node)
                            (fun _ => ret false))
                  = match esTreeNodeToTSNodeMap_get host (id node) with
                    | Thrown _ => [NodeMapGet]
                    | Returned tsNode =>
                        match checker_getTypeAtLocation host tsNode with
                        | Thrown _ => [NodeMapGet; GetTypeAtLocation]
                        | Returned _ => [NodeMapGet; GetTypeAtLocation; TypeToString]
                        end
                    end).
  { unfold resolvedTypeIsAny, nodeMapGet, getTypeAtLocation, typeToString, call.
    destruct (esTreeNodeToTSNodeMap_get host (id node)) as [tsNode|e];
      [|reflexivity].
    simpl. destruct (checker_getTypeAtLocation host tsNode) as [ty|e];
      [|reflexivity].
    simpl. destruct (checker_typeToString host ty) as [str|e]; [|reflexivity].
    simpl. destruct (includes (excludeTypes options) str); reflexivity. }
  unfold hasAnyType. destruct (id node) as [name [[]|]| |]; try exact Hbody.
  reflexivity.
Qed.

Lemma In_middle_segment (ev : Event) (before middle after : list Event) :
  ~ In ev before -> ~ In ev after ->
  In ev (before ++ middle ++ after) <-> In ev middle.
Proof.
  intros Hb Ha. rewrite !in_app_iff. tauto.
Qed.

(** A call of the type classifier is in the trace of a visit exactly when
    the declarator passes guards 1 to 5 and the classifier makes it. *)
Lemma classifier_call_in_visit (node : VariableDeclarator) (ev : Event) :
  ev = NodeMapGet \/ ev = GetTypeAtLocation \/ ev = TypeToString ->
  In ev (events (VariableDeclarator_visit host options node))
  <-> passesIdentityGuards host options node = true
      /\ In ev (events (hasAnyType host options node)).
Proof.
  intros Hev.
  assert (Hscope : ~ In ev (if isIdentifier (id node) && ignoreImports options
                            then [GetScope] else [])).
  { destruct (isIdentifier (id node) && ignoreImports options); simpl;
      destruct Hev as [-> | [-> | ->]]; intuition discriminate. }
  assert (Hafter : ~ In ev
                     (filter notRegExpTest (events (isSimpleValue host options node))
                      ++ map Report
                           (reports (events (VariableDeclarator_visit host options
                                               node))))).
  { rewrite in_app_iff, in_map_iff. intros [H|(d & Hd & _)].
    - destruct (isSimpleValue_calls node) as [Hs|Hs]; rewrite Hs in H; simpl in H;
        destruct Hev as [-> | [-> | ->]]; intuition discriminate.
    - destruct Hev as [-> | [-> | ->]]; discriminate. }
  rewrite In_visit_calls by (destruct Hev as [-> | [-> | ->]]; reflexivity).
  rewrite visit_calls.
  destruct (passesIdentityGuards host options node).
  - rewrite (In_middle_segment ev _ _ _ Hscope Hafter). tauto.
  - rewrite app_nil_r. split; [intros H; contradiction | intros [H _]; discriminate].
Qed.

(** X12: the scope manager is consulted exactly when imports are ignored
    and the target is a plain identifier.  The node map of the parser
    services is looked up exactly when the declarator passes guards 1 to 5
    and its identifier is not annotated [any]; [checker.getTypeAtLocation]
    is called exactly when moreover that lookup returns, and
    [checker.typeToString] exactly when moreover [getTypeAtLocation]
    returns. *)
Theorem host_consulted_iff (node : VariableDeclarator) :
  (In GetScope (events (VariableDeclarator_visit host options node))
   <-> isIdentifier (id node) && ignoreImports options = true)
  /\ (In NodeMapGet (events (VariableDeclarator_visit host options node))
      <-> passesIdentityGuards host options node = true
          /\ annotatedAny (id node) = false)
  /\ (In GetTypeAtLocation (events (VariableDeclarator_visit host options node))
      <-> passesIdentityGuards host options node = true
          /\ annotatedAny (id node) = false
          /\ exists tsNode,
               esTreeNodeToTSNodeMap_get host (id node) = Returned tsNode)
  /\ (In TypeToString (events (VariableDeclarator_visit host options node))
      <-> passesIdentityGuards host options node = true
          /\ annotatedAny (id node) = false
          /\ exists tsNode type,
               esTreeNodeToTSNodeMap_get host (id node) = Returned tsNode
               /\ checker_getTypeAtLocation host tsNode = Returned type).
Proof.
  split; [apply scope_consulted_iff|].
  rewrite !classifier_call_in_visit by auto.
  rewrite hasAnyType_trace.
  destruct (annotatedAny (id node)).
  - split; [|split].
    + split; [intros [_ H]; destruct H | intros [_ H]; discriminate].
    + split; [intros [_ H]; destruct H | intros (_ & H & _); discriminate].
    + split; [intros [_ H]; destruct H | intros (_ & H & _); discriminate].
  - destruct (esTreeNodeToTSNodeMap_get host (id node)) as [tsNode|e] eqn:Hget.
    + destruct (checker_getTypeAtLocation host tsNode) as [ty|e] eqn:Hty.
      * split; [|split]; (split; intros [Hp _]; (split; [exact Hp|])).
        -- reflexivity.
        -- simpl. auto.
        -- split; [reflexivity | exists tsNode; reflexivity].
        -- simpl. auto.
        -- split; [reflexivity|]. exists tsNode, ty. auto.
        -- simpl. auto.
      * split; [|split].
        -- split; intros [Hp _]; (split; [exact Hp|]); [reflexivity | simpl; auto].
        -- split; intros [Hp _]; (split; [exact Hp|]);
             [split; [reflexivity | exists tsNode; reflexivity] | simpl; auto].
        -- split.
           ++ intros [_ H]. simpl in H. intuition discriminate.
           ++ intros (_ & _ & ts & ty' & Hts & Hty').
              injection Hts as <-. congruence.
    + split; [|split].
      * split; intros [Hp _]; (split; [exact Hp|]); [reflexivity | simpl; auto].
      * split.
        -- intros [_ H]. simpl in H. intuition discriminate.
        -- intros (_ & _ & ts & Hts). discriminate.
      * split.
        -- intros [_ H]. simpl in H. intuition discriminate.
        -- intros (_ & _ & ts & ty' & Hts & _). discriminate.
Qed.

(** X13: a visit leaves by its last exit exactly when the declarator is
    in scope, and by the exit of guard 6 exactly when it passes guards 1
    to 5 and is neither dynamically typed nor simple. *)
Theorem exit_reflects_scope (node : VariableDeclarator) :
  (value (VariableDeclarator_visit host options node) = Returned Checked
   <-> inScope host options node = true)
  /\ (value (VariableDeclarator_visit host options node) = Returned NeitherAnyNorSimple
      <-> passesIdentityGuards host options node = true
          /\ inScope host options node = false).
Proof.
  unfold VariableDeclarator_visit, inScope, passesIdentityGuards.
  destruct (id node) as [name ann| |] eqn:Hid;
    try (simpl; destruct (ignoreDestructuring options); simpl;
         repeat split; try discriminate; intros [H _]; discriminate).
  destruct (silent_isImportedVariable host node) as (l1 & b1 & E1 & _).
  destruct (silent_isAllowedByPattern host options name) as (l2 & b2 & E2 & _).
  destruct (silent_hasAnyType host options node) as (l3 & b3 & E3 & _).
  destruct (silent_isSimpleValue host options node) as (l4 & b4 & E4 & _).
  rewrite E1, E2, E3, E4, reportNamingIssue_run.
  unfold returnsTrue, value. simpl.
  destruct (ignoreImports options), b1, b2,
    (isFunction node), (checkFunctions options), b3, b4,
    (isValidCase options name);
    simpl; repeat split; try discriminate; try reflexivity;
    intros [H1 H2]; discriminate.
Qed.

End Traces.

Lemma excluded_before_classification_witness :
  filter notRegExpTest
    (events (VariableDeclarator_visit Samples.importingHost
               (mkOptions (Some camelCase) None None None None None None None (Some true))
               Samples.SOME_VALUE))
  = [GetScope].
Proof.
  apply (excluded_before_classification Samples.importingHost
           (mkOptions (Some camelCase) None None None None None None None (Some true))
           Samples.SOME_VALUE).
  reflexivity.
Defined.

(* ------------------------------------------------------------------ *)
(** ** What the converters produce *)

Section Conversions.

Lemma isLetter_lowered (a : ascii) :
  isLetter a = true -> isLower (toLowerCaseChar a) = true.
Proof. each_char a. Qed.

Lemma isLetter_uppered (a : ascii) :
  isLetter a = true -> isUpper (toUpperCaseChar a) = true.
Proof. each_char a. Qed.

Lemma isLetter_isDot (a : ascii) : isLetter a = true -> isDot a = true.
Proof. each_char a. Qed.

Lemma isLetter_not_separator (a : ascii) :
  isLetter a = true -> isSeparator a = false.
Proof. each_char a. Qed.

Lemma isAlnum_lowered (c : ascii) :
  isAlnum c = true ->
  isLower (toLowerCaseChar c) || isDigit (toLowerCaseChar c) = true.
Proof. each_char c. Qed.

Lemma isAlnum_uppered (c : ascii) :
  isAlnum c = true ->
  isUpper (toUpperCaseChar c) || isDigit (toUpperCaseChar c) = true.
Proof. each_char c. Qed.

Lemma isAlnum_toUpperCaseChar (c : ascii) :
  isAlnum c = true -> isAlnum (toUpperCaseChar c) = true.
Proof. each_char c. Qed.

Lemma not_isDot_caseless (c : ascii) :
  isDot c = false -> isUpper c = false /\ isLower c = false.
Proof. each_char c; split; reflexivity. Qed.

Lemma lowered_tail (sep : ascii) (r : string) :
  toLowerCaseChar sep = sep ->
  all isAlnum r = true ->
  all (fun d => isLower d || isDigit d || Ascii.eqb d sep)
    (toLowerCase (insertBeforeUpper sep r)) = true.
Proof.
  intros Hsep. induction r as [|c r IH]; simpl; [reflexivity|].
  intros H. apply andb_prop in H. destruct H as [Hc Hr].
  destruct (isUpper c); simpl;
    rewrite ?Hsep, ?Ascii.eqb_refl, ?orb_true_r, (isAlnum_lowered c Hc), (IH Hr);
    reflexivity.
Qed.

Lemma uppered_tail (r : string) :
  all isAlnum r = true ->
  all (fun d => isUpper d || isDigit d || isUnderscore d)
    (toUpperCase (insertBeforeUpper "_"%char r)) = true.
Proof.
  induction r as [|c r IH]; simpl; [reflexivity|].
  intros H. apply andb_prop in H. destruct H as [Hc Hr].
  destruct (isUpper c); simpl; rewrite (isAlnum_uppered c Hc), (IH Hr); reflexivity.
Qed.

Lemma lowered_name (sep : ascii) (a : ascii) (r : string) :
  toLowerCaseChar sep = sep -> isLetter sep = false ->
  isLetter a = true -> all isAlnum r = true ->
  testFirstRest isLower (fun d => isLower d || isDigit d || Ascii.eqb d sep)
    (dropLeading sep (toLowerCase (insertBeforeUpper sep (String a r)))) = true.
Proof.
  intros Hsep Hnot Ha Hr. pose proof (lowered_tail sep r Hsep Hr) as Htail.
  assert (Hne : forall x, isLetter x = true -> Ascii.eqb x sep = false).
  { intros x Hx. destruct (Ascii.eqb x sep) eqn:He; [|reflexivity].
    apply Ascii.eqb_eq in He. subst x. congruence. }
  simpl. destruct (isUpper a) eqn:Hup; simpl.
  - rewrite Hsep, Ascii.eqb_refl. simpl.
    rewrite (isLetter_lowered a Ha), Htail. reflexivity.
  - rewrite (toLowerCaseChar_fixed a Hup), (Hne a Ha). simpl.
    unfold isLetter in Ha. rewrite Hup, orb_false_r in Ha.
    rewrite Ha, Htail. reflexivity.
Qed.

Lemma uppered_name (a : ascii) (r : string) :
  isLetter a = true -> all isAlnum r = true ->
  testFirstRest isUpper (fun d => isUpper d || isDigit d || isUnderscore d)
    (dropLeading "_"%char (toUpperCase (insertBeforeUpper "_"%char (String a r))))
  = true.
Proof.
  intros Ha Hr. pose proof (uppered_tail r Hr) as Htail.
  pose proof (isLetter_uppered a Ha) as Hupper.
  pose proof (isUpper_not_underscore _ Hupper) as Hne. unfold isUnderscore in Hne.
  cbn [insertBeforeUpper]. destruct (isUpper a) eqn:Hup; cbn [toUpperCase].
  - change (toUpperCaseChar "_"%char) with "_"%char.
    cbn [dropLeading]. rewrite Ascii.eqb_refl.
    cbn [testFirstRest]. rewrite Hupper, Htail. reflexivity.
  - cbn [dropLeading]. rewrite Hne.
    cbn [testFirstRest]. rewrite Hupper, Htail. reflexivity.
Qed.

Lemma alphanumeric_converted_valid (n : string) (c : CaseType) :
  caseValidators camelCase n = true \/ caseValidators PascalCase n = true ->
  caseValidators c (caseConverters c n) = true.
Proof.
  intros Hvalid.
  assert (Hshape : exists a r, n = String a r /\ isLetter a = true
                               /\ all isAlnum r = true).
  { destruct Hvalid as [H|H];
      [destruct (valid_lower_start _ _ H) as (a & r & -> & Ha & Hr)
      |destruct (valid_upper_start _ _ H) as (a & r & -> & Ha & Hr)];
      exists a, r; unfold isLetter; rewrite Ha, ?orb_true_r; auto. }
  destruct Hshape as (a & r & -> & Ha & Hr).
  assert (Hfixed : replaceSeparators (String a r) = String a r).
  { apply replaceSeparators_fixed. simpl.
    rewrite (isLetter_not_separator a Ha). simpl.
    apply (all_impl isAlnum); [|exact Hr].
    intros d Hd. rewrite (isAlnum_not_separator d Hd). reflexivity. }
  destruct c.
  - unfold caseConverters. rewrite Hfixed. simpl.
    rewrite (isLetter_isDot a Ha). simpl.
    rewrite (isLetter_lowered a Ha), Hr. reflexivity.
  - unfold caseConverters. rewrite Hfixed. simpl.
    rewrite (isLetter_isDot a Ha). simpl.
    rewrite (isLetter_uppered a Ha), Hr. reflexivity.
  - apply (lowered_name "_"%char a r); auto.
  - apply (uppered_name a r); auto.
  - apply (lowered_name "-"%char a r); auto.
Qed.

(** X14: a name made of letters and digits that starts with a letter (a
    valid camelCase or PascalCase name) is converted by each of the five
    converters into a name that validates under that converter's
    convention. *)
Theorem alphanumeric_names_convert_to_valid (n : string) (c : CaseType) :
  caseValidators camelCase n = true \/ caseValidators PascalCase n = true ->
  caseValidators c (caseConverters c n) = true.
Proof. apply alphanumeric_converted_valid. Qed.

Lemma replaceSeparators_alnum (s : string) :
  (all (fun c => isAlnum c || isSeparator c) s = true ->
   wellSeparated s = true ->
   all isAlnum (replaceSeparators s) = true)
  /\ (forall c,
        all (fun c => isAlnum c || isSeparator c) (String c s) = true ->
        wellSeparated (String c s) = true ->
        all isAlnum (replaceSeparators (String c s)) = true).
Proof.
  induction s as [|a r [IH IHc]].
  - split; [reflexivity|]. intros c Hc Hw. simpl in *.
    destruct (isSeparator c); [discriminate|].
    simpl. rewrite orb_false_r, andb_true_r in Hc. rewrite Hc. reflexivity.
  - split; [apply IHc|].
    intros c Hall Hw. rewrite replaceSeparators_step.
    change (all (fun c => isAlnum c || isSeparator c) (String c (String a r)))
      with ((isAlnum c || isSeparator c)
            && all (fun c => isAlnum c || isSeparator c) (String a r)) in Hall.
    apply andb_prop in Hall. destruct Hall as [Hc Har].
    change (wellSeparated (String c (String a r)))
      with (if isSeparator c
            then negb (isSeparator a) && wellSeparated (String a r)
            else wellSeparated (String a r)) in Hw.
    destruct (isSeparator c) eqn:Hsep.
    + apply andb_prop in Hw. destruct Hw as [Ha Hwr].
      apply negb_true_iff in Ha.
      assert (Haln : isAlnum a = true).
      { simpl in Har. rewrite Ha, orb_false_r in Har.
        apply andb_prop in Har. tauto. }
      assert (Hdot : isDot a = true).
      { destruct (isDot a) eqn:Hd; [reflexivity|].
        destruct (not_isDot_caseless a Hd) as [H1 H2]. revert Haln Hd.
        clear. each_char a. }
      rewrite Hdot.
      change (all isAlnum (String (toUpperCaseChar a) (replaceSeparators r)))
        with (isAlnum (toUpperCaseChar a) && all isAlnum (replaceSeparators r)).
      rewrite (isAlnum_toUpperCaseChar a Haln). simpl.
      apply IH.
      * simpl in Har. apply andb_prop in Har. tauto.
      * simpl in Hwr. rewrite Ha in Hwr. exact Hwr.
    + rewrite orb_false_r in Hc.
      change (all isAlnum (String c (replaceSeparators (String a r))))
        with (isAlnum c && all isAlnum (replaceSeparators (String a r))).
      rewrite Hc. simpl. apply IHc; assumption.
Qed.

Lemma separated_converted_valid (n : string) :
  separatedName n = true ->
  caseValidators camelCase (caseConverters camelCase n) = true
  /\ caseValidators PascalCase (caseConverters PascalCase n) = true.
Proof.
  unfold separatedName. intros H. apply andb_prop in H. destruct H as [Hshape Hw].
  destruct n as [|a r]; [discriminate|].
  simpl in Hshape. apply andb_prop in Hshape. destruct Hshape as [Ha Hr].
  pose proof (isLetter_not_separator a Ha) as Hsep.
  assert (Htail : all isAlnum (replaceSeparators r) = true).
  { apply (proj1 (replaceSeparators_alnum r)); [exact Hr|].
    destruct r; [reflexivity|]. simpl in Hw. rewrite Hsep in Hw. exact Hw. }
  unfold caseConverters. rewrite replaceSeparators_step, Hsep. simpl.
  rewrite (isLetter_isDot a Ha). simpl.
  rewrite (isLetter_lowered a Ha), (isLetter_uppered a Ha), Htail.
  split; reflexivity.
Qed.

(** X15: a name that starts with a letter and whose separators are each
    followed by a letter or a digit, such as a valid snake_case name
    without doubled or trailing underscores, is converted by the camelCase
    and PascalCase converters into a valid name of that convention. *)
Theorem separated_names_convert_to_valid (n : string) :
  separatedName n = true ->
  caseValidators camelCase (caseConverters camelCase n) = true
  /\ caseValidators PascalCase (caseConverters PascalCase n) = true.
Proof. apply separated_converted_valid. Qed.

(** X16: for every name of ASCII characters, the snake_case and
    kebab-case converters return no upper-case letter, the
    UPPER_SNAKE_CASE converter returns no lower-case letter, the camelCase
    converter returns no upper-case first letter and the PascalCase
    converter no lower-case first letter; each result is again of ASCII
    characters. *)
Theorem converted_letter_case (n : string) :
  isAsciiName n = true ->
  noUpper (caseConverters snake_case n) = true
  /\ noUpper (caseConverters kebab_case n) = true
  /\ noLower (caseConverters UPPER_SNAKE_CASE n) = true
  /\ firstIs isUpper (caseConverters camelCase n) = false
  /\ firstIs isLower (caseConverters PascalCase n) = false
  /\ forall c, isAsciiName (caseConverters c n) = true.
Proof.
  intros Hn.
  split; [apply converted_no_upper|]. split; [apply converted_no_upper|].
  split; [apply converted_no_lower|].
  assert (Hfirst : firstIs isUpper (caseConverters camelCase n) = false
                   /\ firstIs isLower (caseConverters PascalCase n) = false).
  { unfold caseConverters.
    destruct (replaceSeparators n) as [|c r]; [split; reflexivity|].
    simpl. destruct (isDot c) eqn:Hd; simpl.
    - rewrite toLowerCaseChar_not_upper, toUpperCaseChar_not_lower.
      split; reflexivity.
    - destruct (not_isDot_caseless c Hd) as [-> ->]. split; reflexivity. }
  destruct Hfirst as [Hcamel Hpascal].
  split; [exact Hcamel|]. split; [exact Hpascal|].
  intros c. apply isAsciiName_converted, Hn.
Qed.

Lemma all_snake_kebab_alnum (r : string) :
  all (fun c => isLower c || isDigit c || isUnderscore c) r = true ->
  all (fun c => isLower c || isDigit c || isHyphen c) r = true ->
  all isAlnum r = true.
Proof.
  induction r as [|c r IH]; [reflexivity|].
  simpl. intros Hs Hk. apply andb_prop in Hs, Hk.
  destruct Hs as [Hc Hs], Hk as [Hc' Hk].
  rewrite (IH Hs Hk), andb_true_r.
  revert Hc Hc'. clear. each_char c.
Qed.

(** X17: no name validates under both a convention that starts with a
    lower-case letter (camelCase, snake_case, kebab-case) and one that
    starts with an upper-case letter (PascalCase, UPPER_SNAKE_CASE); and a
    name valid as snake_case and as kebab-case is valid camelCase. *)
Theorem validators_by_first_letter (n : string) :
  (caseValidators camelCase n = true \/ caseValidators snake_case n = true
   \/ caseValidators kebab_case n = true ->
   caseValidators PascalCase n = false /\ caseValidators UPPER_SNAKE_CASE n = false)
  /\ (caseValidators snake_case n = true -> caseValidators kebab_case n = true ->
      caseValidators camelCase n = true).
Proof.
  split.
  - intros H.
    assert (Hlow : exists a r, n = String a r /\ isLower a = true).
    { destruct H as [H|[H|H]];
        destruct (valid_lower_start _ _ H) as (a & r & -> & Ha & _);
        exists a, r; auto. }
    destruct Hlow as (a & r & -> & Ha). simpl.
    rewrite (isLower_not_upper a Ha). split; reflexivity.
  - intros Hs Hk.
    destruct (valid_lower_start _ _ Hs) as (a & r & -> & Ha & Hr).
    destruct (valid_lower_start _ _ Hk) as (a' & r' & Heq & _ & Hr').
    injection Heq as <- <-.
    simpl. rewrite Ha, (all_snake_kebab_alnum r Hr Hr'). reflexivity.
Qed.

Lemma afterIdentifierBracket_iff (s : string) :
  afterIdentifierBracket s = true
  <-> exists w rest, s = (w ++ String "["%char rest)%string
                     /\ all isWordChar w = true.
Proof.
  split.
  - induction s as [|c r IH]; simpl; [discriminate|].
    destruct (Ascii.eqb c "["%char) eqn:Hb.
    + apply Ascii.eqb_eq in Hb. subst c. intros _.
      exists EmptyString, r. split; reflexivity.
    + destruct (isAlnum c || isUnderscore c) eqn:Hw; [|discriminate].
      intros H. destruct (IH H) as (w & rest & -> & Hall).
      exists (String c w), rest. split; [reflexivity|].
      simpl. unfold isWordChar at 1. rewrite Hw, Hall. reflexivity.
  - intros (w & rest & -> & Hall). induction w as [|c w IH]; [reflexivity|].
    simpl in Hall |- *. apply andb_prop in Hall. destruct Hall as [Hc Hw].
    destruct (Ascii.eqb c "["%char); [reflexivity|].
    unfold isWordChar in Hc. rewrite Hc. apply IH, Hw.
Qed.

(** X18: the test of [isMemberExpressionComponent] accepts exactly the
    texts made of an upper-case letter, then letters, digits and
    underscores, then an opening bracket, then anything. *)
Theorem testUpperIdentifierBracket_iff (text : string) :
  testUpperIdentifierBracket text = true
  <-> exists c w rest,
        text = String c (w ++ String "["%char rest)%string
        /\ isUpper c = true /\ all isWordChar w = true.
Proof.
  destruct text as [|c r]; simpl.
  - split; [discriminate | intros (c & w & rest & H & _); discriminate].
  - rewrite andb_true_iff, afterIdentifierBracket_iff. split.
    + intros (Hc & w & rest & -> & Hw). exists c, w, rest. auto.
    + intros (c' & w & rest & Heq & Hc & Hw). injection Heq as <- ->.
      split; [exact Hc | exists w, rest; auto].
Qed.

End Conversions.

Lemma alphanumeric_names_convert_to_valid_witness :
  caseValidators UPPER_SNAKE_CASE (caseConverters UPPER_SNAKE_CASE "myVariable2") = true.
Proof.
  apply (alphanumeric_names_convert_to_valid "myVariable2" UPPER_SNAKE_CASE).
  left. reflexivity.
Defined.

Lemma separated_names_convert_to_valid_witness :
  caseValidators camelCase (caseConverters camelCase "my_variable") = true
  /\ caseValidators PascalCase (caseConverters PascalCase "my_variable") = true.
Proof.
  apply (separated_names_convert_to_valid "my_variable"). reflexivity.
Defined.

(* ------------------------------------------------------------------ *)
(** ** Imports, the fix and the cost of a visit *)

Section Visits.

Variable host : Host.
Variable options : Options.

(** X19: a plain identifier counts as imported exactly when a scope is
    found for the declarator and the first variable of that name in it
    has an import definition; when imports are ignored such a declarator
    leaves the visitor right after the scope lookup, before the allowlist
    and the classifiers. *)
Theorem imported_binding_ignored (node : VariableDeclarator) (name : string)
    (ann : option TypeNode) :
  id node = BindingIdentifier name ann ->
  (value (isImportedVariable host node) = Returned true
   <-> exists scope variable,
         sourceCode_getScope host node = Some scope
         /\ find (fun v => String.eqb (var_name v) name) (variables scope)
            = Some variable
         /\ In ImportBinding (defs variable))
  /\ (ignoreImports options = true ->
      value (isImportedVariable host node) = Returned true ->
      VariableDeclarator_visit host options node = ([GetScope], Returned IgnoredImport)).
Proof.
  intros Hid.
  assert (Hdefs : forall l, existsb (fun def => match def with
                                               | ImportBinding => true
                                               | _ => false
                                               end) l = true
                            <-> In ImportBinding l).
  { intros l. rewrite existsb_exists. split.
    - intros (d & Hd & Hi). destruct d; try discriminate. exact Hd.
    - intros H. exists ImportBinding. auto. }
  split.
  - unfold isImportedVariable, getScope, call. rewrite Hid. simpl.
    destruct (sourceCode_getScope host node) as [scope|].
    + destruct (find (fun v => String.eqb (var_name v) name) (variables scope))
        as [variable|] eqn:Hfind.
      * split.
        -- intros H. exists scope, variable. repeat split; auto.
           apply Hdefs. congruence.
        -- intros (sc & v & Hsc & Hv & Hin).
           injection Hsc as <-. rewrite Hfind in Hv. injection Hv as <-.
           apply Hdefs in Hin. rewrite Hin. reflexivity.
      * split; [discriminate|].
        intros (sc & v & Hsc & Hv & _). injection Hsc as <-. congruence.
    + split; [discriminate | intros (sc & v & Hsc & _); discriminate].
  - intros Hignore Himported. unfold VariableDeclarator_visit.
    rewrite Hid, Hignore. simpl.
    destruct (silent_isImportedVariable host node) as (l & b & E & _).
    pose proof (isImportedVariable_events host node name ann Hid) as Hev.
    rewrite E in *. simpl in Himported, Hev. injection Himported as ->.
    subst l. reflexivity.
Qed.

(** X20: for a name of letters and digits that starts with a letter, and
    under camelCase or PascalCase also for a name whose separators are
    each followed by a letter or a digit, the suggested name validates:
    the declarator renamed by the fix is not reported again. *)
Theorem fix_settles_in_one_pass (name : string) (ann : option TypeNode)
    (init : option Node) :
  caseValidators camelCase name = true \/ caseValidators PascalCase name = true
  \/ (separatedName name = true
      /\ (caseType options = camelCase \/ caseType options = PascalCase)) ->
  isValidCase options (convertToCase options name) = true
  /\ reports (events (VariableDeclarator_visit host options
                        (mkDeclarator
                           (BindingIdentifier (convertToCase options name) ann)
                           init))) = [].
Proof.
  intros Hname.
  assert (Hvalid : isValidCase options (convertToCase options name) = true).
  { unfold isValidCase, convertToCase.
    destruct Hname as [H|[H|[H [Hc|Hc]]]].
    - apply alphanumeric_converted_valid. left. exact H.
    - apply alphanumeric_converted_valid. right. exact H.
    - rewrite Hc. apply (separated_converted_valid name H).
    - rewrite Hc. apply (separated_converted_valid name H). }
  split; [exact Hvalid|].
  rewrite visit_reports. simpl. rewrite Hvalid.
  rewrite andb_false_r. reflexivity.
Qed.

Lemma upToFirst_length {A} (p : A -> bool) (l : list A) :
  List.length (upToFirst p l) <= List.length l.
Proof.
  induction l as [|x r IH]; simpl; [lia|].
  destruct (p x); simpl; lia.
Qed.

Lemma isAllowedByPattern_tests (name : string) :
  List.length (events (isAllowedByPattern host options name))
  <= List.length (allowedPatterns options).
Proof.
  unfold isAllowedByPattern. rewrite some_test_run. unfold events. simpl.
  rewrite length_map. apply upToFirst_length.
Qed.

Lemma isSimpleValue_tests (node : VariableDeclarator) :
  List.length (filter (fun ev => negb (notRegExpTest ev))
                 (events (isSimpleValue host options node))) <= 1.
Proof.
  unfold isSimpleValue. destruct (init node) as [n|]; [|simpl; lia].
  destruct (isComponentCreator options (Some n)); [simpl; lia|].
  destruct n; simpl; try lia.
  - destruct (testUpperIdentifierBracket _); simpl; lia.
  - destruct n; simpl; try lia.
    unfold hookPatternTest. destruct (hookPattern options); simpl; lia.
  - destruct kind; simpl; lia.
Qed.

(** X21: a visit runs at most one regular-expression test per allowed
    pattern, plus one for the hook pattern. *)
Theorem visit_tests_bounded (node : VariableDeclarator) :
  List.length (filter (fun ev => negb (notRegExpTest ev))
                 (events (VariableDeclarator_visit host options node)))
  <= List.length (allowedPatterns options) + 1.
Proof.
  destruct (id node) as [name ann| |] eqn:Hid.
  - rewrite (visit_events host options node name ann Hid),
      (isImportedVariable_events host node name ann Hid).
    pose proof (isAllowedByPattern_tests name) as Ha.
    pose proof (isSimpleValue_tests node) as Hs.
    assert (Hh : filter (fun ev => negb (notRegExpTest ev))
                   (events (hasAnyType host options node)) = []).
    { destruct (hasAnyType_events host options node) as [[_ H]|[_ [H|[H|H]]]];
        rewrite H; reflexivity. }
    pose proof (filter_length_le (fun ev => negb (notRegExpTest ev))
                  (events (isAllowedByPattern host options name))) as Hle.
    remember (events (isAllowedByPattern host options name)) as la.
    remember (events (hasAnyType host options node)) as lh.
    remember (events (isSimpleValue host options node)) as ls.
    destruct (ignoreImports options),
      (returnsTrue (isImportedVariable host node)),
      (returnsTrue (isAllowedByPattern host options name)),
      (isFunction node), (checkFunctions options),
      (returnsTrue (hasAnyType host options node)),
      (returnsTrue (isSimpleValue host options node)),
      (isValidCase options name),
      (String.eqb (convertToCase options name) name);
      cbn [negb andb orb app];
      repeat (progress (rewrite ?filter_app, ?length_app, ?Hh;
                        cbn [app filter notRegExpTest negb List.length]));
      lia.
  - unfold VariableDeclarator_visit. rewrite Hid. simpl.
    destruct (ignoreDestructuring options); simpl; lia.
  - unfold VariableDeclarator_visit. rewrite Hid. simpl.
    destruct (ignoreDestructuring options); simpl; lia.
Qed.

End Visits.

Lemma imported_binding_ignored_witness :
  VariableDeclarator_visit Samples.importingHost
    (mkOptions (Some camelCase) (Some ["^_"]) None None None None None None (Some true))
    Samples.SOME_VALUE
  = ([GetScope], Returned IgnoredImport).
Proof.
  apply (imported_binding_ignored Samples.importingHost
           (mkOptions (Some camelCase) (Some ["^_"]) None None None None None None
              (Some true))
           Samples.SOME_VALUE "SOME_VALUE" None); reflexivity.
Defined.

Lemma fix_settles_in_one_pass_witness :
  isValidCase Samples.defaultOptions (convertToCase Samples.defaultOptions "my_variable")
  = true
  /\ reports (events (VariableDeclarator_visit Samples.plainHost Samples.defaultOptions
                        (mkDeclarator
                           (BindingIdentifier
                              (convertToCase Samples.defaultOptions "my_variable") None)
                           (Some Literal)))) = [].
Proof.
  apply (fix_settles_in_one_pass Samples.plainHost Samples.defaultOptions
           "my_variable" None (Some Literal)).
  right. right. split; [reflexivity | left; reflexivity].
Defined.

Lemma reconversion_fixed_iff_settled_witness :
  isAsciiName (caseConverters camelCase "my_variable") = true
  /\ (caseConverters camelCase (caseConverters camelCase "my_variable")
      = caseConverters camelCase "my_variable"
      <-> settled camelCase (caseConverters camelCase "my_variable") = true).
Proof.
  apply (reconversion_fixed_iff_settled camelCase "my_variable"). reflexivity.
Defined.

Lemma converted_letter_case_witness :
  noUpper (caseConverters snake_case "myVariable") = true
  /\ noUpper (caseConverters kebab_case "myVariable") = true
  /\ noLower (caseConverters UPPER_SNAKE_CASE "myVariable") = true
  /\ firstIs isUpper (caseConverters camelCase "myVariable") = false
  /\ firstIs isLower (caseConverters PascalCase "myVariable") = false
  /\ forall c, isAsciiName (caseConverters c "myVariable") = true.
Proof.
  apply (converted_letter_case "myVariable"). reflexivity.
Defined.
